(** * Registry resolution and layer extraction (pkg/registry/registry.go)

    A shallow embedding of the special-resource-operator registry helper:
    credential lookup in the cluster pull secret, manifest and manifest-list
    resolution, digest derivation, the tar scan of a layer for one named
    file, and the three metadata projections over the decoded file.

    Go strings and byte slices are sequences of bytes; both are [string]
    here.  A Go [map[string]T] is a [gmap string T].  A function returning
    [(T, error)] returns an [outcome T]; a run-time panic is a third
    outcome.  The functions that talk to the cluster or to the registry run
    in the monad [M], which records every such call in order. *)

From Stdlib Require Import ZArith Ascii.
From stdpp Require Import base option list strings gmap.

Set Warnings "-register-all".
Local Open Scope string_scope.

(** ** Values decoded by encoding/json into [interface{}] *)

(** [json.Unmarshal] into an [interface{}] yields nil, bool, float64, string,
    [[]interface{}] or [map[string]interface{}].  The float64 is kept as its
    64-bit pattern: no function of this package looks inside a number. *)
Inductive json : Type :=
  | JNull
  | JBool (b : bool)
  | JNumber (bits : Z)
  | JString (s : string)
  | JArray (elems : list json)
  | JObject (fields : gmap string json).

(** ** Errors and panics *)

(** Errors produced by the libraries (client-go, crane, gzip, tar, json) are
    passed through unchanged; they are identified by their text. *)
Definition lib_error := string.

(** The error of the apimachinery [unstructured.Nested*] accessors:
    "<path> accessor error: <val> is of the type <T>, expected <want>". *)
Record accessor_error := AccessorError {
  acc_path : list string;
  acc_val : json;
  acc_want : string
}.

(** One constructor per error the package builds, carrying the values its
    format string interpolates. *)
Inductive error : Type :=
  | ErrParseImageURL (image : string)
      (* "failed to parse image url: %s" *)
  | ErrRetrieveSecret (cause : lib_error)
      (* "could not retrieve pull secrets, [%w]" *)
  | ErrNoSecretData
      (* "could not find data content in the secret" *)
  | ErrUnmarshalAuths
      (* "failed to unmarshal auths" *)
  | ErrNoAuthForRegistry (registry : string)
      (* "cluster PullSecret does not contain auth for registry %s" *)
  | ErrGetField (field : string) (cause : option accessor_error) (found : bool)
      (* "failed to get <field> from etc/driver-toolkit-release.json: err %w, found %t" *)
  | ErrSpecTag (cause : option accessor_error) (found : bool)
      (* "failed to find spec/tag in the release-manifests/image-references: ..." *)
  | ErrMissingFrom
      (* "invalid image reference format for driver toolkit entry, missing `from` tag" *)
  | ErrMissingName
      (* "invalid image reference format for driver toolkit entry, missing `name` tag" *)
  | ErrNoDriverToolkit
      (* "failed to find driver-toolkit in the release-manifests/image-references" *)
  | ErrSpecTags (cause : option accessor_error) (found : bool)
      (* "failed to find spec/tags in release-manifests/image-references: ..." *)
  | ErrAnnotations
      (* "invalid machine-os-content format, annotations tag" *)
  | ErrBuildVersions
      (* "invalid machine-os-content format, io.openshift.build.versions tag" *)
  | ErrNoMachineOSContent
      (* "failed to find machine-os-content in the release-manifests/image-references" *)
  | ErrNoHashOrTag (image : string)
      (* "image url %s is not valid, does not contain hash or tag" *)
  | ErrMediaTypeMissing (image : string)
      (* "mediaType is missing from the image %s manifest" *)
  | ErrHeaderNotFound (headerName : string)
      (* "header %s not found in the layer" *)
  | ErrArchNotFound (arch : string)
      (* "Failed to find manifest for architecture %s" *)
  | ErrAccessor (e : accessor_error)
      (* an accessor error returned as it is *)
  | ErrLib (e : lib_error).
      (* a library error returned as it is *)

Inductive panic : Type :=
  | PanicIndexOutOfRange (index : Z) (len : nat)
      (* "index out of range [%d] with length %d" *)
  | PanicInterfaceConversion (val : json) (want : string).
      (* "interface conversion: interface {} is <T>, not <want>" *)

(** The result of a call: a value, a returned error, or a panic. *)
Inductive outcome (A : Type) : Type :=
  | Ok (a : A)
  | Err (e : error)
  | Panic (p : panic).
Arguments Ok {A} a.
Arguments Err {A} e.
Arguments Panic {A} p.

Definition obind {A B : Type} (m : outcome A) (k : A -> outcome B) : outcome B :=
  match m with
  | Ok a => k a
  | Err e => Err e
  | Panic p => Panic p
  end.

(** What a library call returns: [(T, error)] with no panic of its own. *)
Definition lib_result (A : Type) : Type := lib_error + A.

Definition of_lib {A : Type} (r : lib_result A) : outcome A :=
  match r with
  | inr a => Ok a
  | inl e => Err (ErrLib e)
  end.

(** ** Library data the package reads *)

(** [url.URL]: only [Host] is read. *)
Record URL := { Host : string }.

(** [corev1.Secret]: only [Data] is read. *)
Record Secret := { Data : gmap string string }.

Record dockerAuth := { Auth : string; Email : string }.

(** [v1.Hash], [v1.Platform], [v1.Descriptor], [v1.Manifest] and
    [v1.IndexManifest] of go-containerregistry, with the fields read here.
    [Platform] is a pointer in Go: [None] is nil. *)
Record Hash := { Algorithm : string; Hex : string }.
Record Platform := { Architecture : string }.
Record Descriptor := { Digest : Hash; DescPlatform : option Platform }.
Record Manifest := { Layers : list Descriptor }.
Record IndexManifest := { Manifests : list Descriptor }.

(** [crane.Option]: the package builds one option only,
    [crane.WithAuth(authn.FromConfig(authn.AuthConfig{Username, Auth}))]. *)
Inductive crane_Option : Type :=
  | WithAuth (Username : string) (AuthToken : string).

(** What [tar.Reader.Next] gives, one item per call: a header, together with
    what [io.ReadAll] on the reader then gives for that entry, or an error
    other than [io.EOF].  The end of the list is [io.EOF]. *)
Inductive tar_next : Type :=
  | TarHeader (Name : string) (content : lib_result string)
  | TarFail (e : lib_error).

(** A [v1.Layer] as this package observes it: [Compressed()] fails, or
    [gzip.NewReader] on the stream fails, or the stream is a gzip-compressed
    tar archive. *)
Inductive Layer : Type :=
  | CompressedFails (e : lib_error)
  | NotGzip (e : lib_error)
  | TarGz (entries : list tar_next).

(** ** Calls to the cluster and the registry *)

Inductive event : Type :=
  | EvGetSecret (namespace name : string)
  | EvManifest (ref : string) (options : list crane_Option)
  | EvPullLayer (ref : string) (options : list crane_Option).

(** The collaborators the package is built on and the decoders of
    encoding/json at the four Go types the package decodes into. *)
Record World := {
  GOARCH : string;
  url_Parse : string -> lib_result URL;
  GetSecret : string -> string -> lib_result Secret;
  crane_Manifest : string -> list crane_Option -> lib_result string;
  crane_PullLayer : string -> list crane_Option -> lib_result Layer;
  unmarshal_auths : string -> lib_result (gmap string dockerAuth);
  unmarshal_object : string -> lib_result (gmap string json);
  unmarshal_Manifest : string -> lib_result Manifest;
  unmarshal_IndexManifest : string -> lib_result IndexManifest
}.

(** A computation that may call the collaborators: it extends the list of
    calls made so far. *)
Definition M (A : Type) : Type := list event -> outcome A * list event.

Definition mret {A : Type} (a : A) : M A := fun tr => (Ok a, tr).

Definition mbind {A B : Type} (m : M A) (k : A -> M B) : M B :=
  fun tr =>
    match m tr with
    | (Ok a, tr') => k a tr'
    | (Err e, tr') => (Err e, tr')
    | (Panic p, tr') => (Panic p, tr')
    end.

Definition lift {A : Type} (o : outcome A) : M A := fun tr => (o, tr).

(** A call to a collaborator: the call is recorded and its [(T, error)]
    result handed to the caller. *)
Definition call {A : Type} (ev : event) (r : lib_result A) : M (lib_result A) :=
  fun tr => (Ok r, (tr ++ [ev])%list).

Declare Scope go_scope.
Delimit Scope go_scope with go.
Notation "x <- m ;; k" := (mbind m (fun x => k))
  (at level 100, m at next level, right associativity) : go_scope.
Notation "x <~ m ;; k" := (obind m (fun x => k))
  (at level 100, m at next level, right associativity) : go_scope.

(** ** The Go library functions the package computes with *)

(** [strings.Split(s, sep)] for a separator of one byte, which is how the
    package calls it ("@" and ":"): the pieces of [s] between the
    occurrences of [sep]; a string without [sep] is its own single piece. *)
Fixpoint strings_Split (s : string) (sep : Ascii.ascii) : list string :=
  match s with
  | EmptyString => [EmptyString]
  | String c s' =>
      if Ascii.eqb c sep then EmptyString :: strings_Split s' sep
      else match strings_Split s' sep with
           | piece :: pieces => String c piece :: pieces
           | [] => [String c EmptyString]
           end
  end.

(** [strings.Contains(s, substr)]. *)
Fixpoint strings_Contains (s substr : string) : bool :=
  String.prefix substr s ||
  match s with
  | EmptyString => false
  | String _ s' => strings_Contains s' substr
  end.

(** [s[i]] on a slice: a panic outside [0 <= i < len(s)]. *)
Definition index {A : Type} (s : list A) (i : Z) : outcome A :=
  if bool_decide (0 <= i)%Z then
    match s !! Z.to_nat i with
    | Some a => Ok a
    | None => Panic (PanicIndexOutOfRange i (List.length s))
    end
  else Panic (PanicIndexOutOfRange i (List.length s)).

(** [v.(map[string]interface{})], the one-result form: a panic unless [v]
    holds a map.  A nil interface (JSON null) panics as well. *)
Definition assert_map (v : json) : outcome (gmap string json) :=
  match v with
  | JObject m => Ok m
  | _ => Panic (PanicInterfaceConversion v "map[string]interface {}")
  end.

(** [v == s] for an [interface{}] read from a map ([None] is the nil of a
    missing key) and a string constant. *)
Definition iface_eq_string (v : option json) (s : string) : bool :=
  match v with
  | Some (JString s') => String.eqb s' s
  | _ => false
  end.

(** [unstructured.NestedFieldNoCopy]: walk [fields] down from [val];
    [seen] is the path walked so far, reported by the error. *)
Fixpoint nestedFieldFrom (val : json) (seen fields : list string)
  : json * bool * option accessor_error :=
  match fields with
  | [] => (val, true, None)
  | field :: rest =>
      match val with
      | JNull => (JNull, false, None)
      | JObject m =>
          match m !! field with
          | Some val' => nestedFieldFrom val' (seen ++ [field])%list rest
          | None => (JNull, false, None)
          end
      | _ =>
          (JNull, false,
           Some (AccessorError (seen ++ [field])%list val "map[string]interface{}"))
      end
  end.

Definition NestedFieldNoCopy (obj : gmap string json) (fields : list string)
  : json * bool * option accessor_error :=
  nestedFieldFrom (JObject obj) [] fields.

(** [!found || err != nil] *)
Definition failed (found : bool) (err : option accessor_error) : bool :=
  negb found || match err with Some _ => true | None => false end.

(** [unstructured.NestedString] *)
Definition NestedString (obj : gmap string json) (fields : list string)
  : string * bool * option accessor_error :=
  let '(val, found, err) := NestedFieldNoCopy obj fields in
  if failed found err then ("", found, err)
  else match val with
       | JString s => (s, true, None)
       | _ => ("", false, Some (AccessorError fields val "string"))
       end.

(** [unstructured.NestedSlice]; the deep copy it returns is the same value. *)
Definition NestedSlice (obj : gmap string json) (fields : list string)
  : list json * bool * option accessor_error :=
  let '(val, found, err) := NestedFieldNoCopy obj fields in
  if failed found err then ([], found, err)
  else match val with
       | JArray elems => (elems, true, None)
       | _ => ([], false, Some (AccessorError fields val "[]interface{}"))
       end.

(** ** The package *)

Definition pullSecretNamespace : string := "openshift-config".
Definition pullSecretName : string := "pull-secret".
Definition pullSecretFileName : string := ".dockerconfigjson".

Record DriverToolkitEntry := {
  ImageURL : string;
  KernelFullVersion : string;
  RTKernelFullVersion : string;
  OSVersion : string
}.

(** [hash.Algorithm + ":" + hash.Hex] *)
Definition digest_string (h : Hash) : string := Algorithm h ++ ":" ++ Hex h.

Section registry.

Context (W : World).

Local Open Scope go_scope.

(** [err != nil || u.Host == ""] *)
Definition no_host (r : lib_result URL) : bool :=
  match r with
  | inl _ => true
  | inr u => String.eqb (Host u) ""
  end.

Definition registryFromImageURL (image : string) : outcome string :=
  let r := url_Parse W image in
  let r := if no_host r then url_Parse W ("//" ++ image) else r in
  match r with
  | inr u => if String.eqb (Host u) "" then Err (ErrParseImageURL image)
             else Ok (Host u)
  | inl _ => Err (ErrParseImageURL image)
  end.

Definition getImageRegistryCredentials (registry : string) : M dockerAuth :=
  s <- call (EvGetSecret pullSecretNamespace pullSecretName)
            (GetSecret W pullSecretNamespace pullSecretName) ;;
  match s with
  | inl err => lift (Err (ErrRetrieveSecret err))
  | inr s =>
      match Data s !! pullSecretFileName with
      | None => lift (Err ErrNoSecretData)
      | Some pullSecretData =>
          match unmarshal_auths W pullSecretData with
          | inl _ => lift (Err ErrUnmarshalAuths)
          | inr auths =>
              match auths !! registry with
              | None => lift (Err (ErrNoAuthForRegistry registry))
              | Some auth => mret auth
              end
          end
      end
  end.

(** The loop of [getHeaderFromLayer] over the tar reader; the second
    component is what the reader has not yet been asked for. *)
Fixpoint scanHeaders (headerName : string) (tr : list tar_next)
  : outcome (gmap string json) * list tar_next :=
  match tr with
  | [] => (Err (ErrHeaderNotFound headerName), [])
  | TarFail e :: tr' => (Err (ErrLib e), tr')
  | TarHeader name content :: tr' =>
      if String.eqb name headerName then
        (buff <~ of_lib content ;; of_lib (unmarshal_object W buff), tr')
      else scanHeaders headerName tr'
  end.

Definition getHeaderFromLayer (layer : Layer) (headerName : string)
  : outcome (gmap string json) :=
  match layer with
  | CompressedFails e => Err (ErrLib e)
  | NotGzip e => Err (ErrLib e)
  | TarGz entries => fst (scanHeaders headerName entries)
  end.

Definition ExtractToolkitRelease (layer : Layer) : outcome DriverToolkitEntry :=
  let dtk := {| ImageURL := ""; KernelFullVersion := "";
                RTKernelFullVersion := ""; OSVersion := "" |} in
  obj <~ getHeaderFromLayer layer "etc/driver-toolkit-release.json" ;;
  let '(s, found, err) := NestedString obj ["KERNEL_VERSION"] in
  let dtk := {| ImageURL := ImageURL dtk; KernelFullVersion := s;
                RTKernelFullVersion := RTKernelFullVersion dtk;
                OSVersion := OSVersion dtk |} in
  if failed found err then Err (ErrGetField "KERNEL_VERSION" err found) else
  let '(s, found, err) := NestedString obj ["RT_KERNEL_VERSION"] in
  let dtk := {| ImageURL := ImageURL dtk;
                KernelFullVersion := KernelFullVersion dtk;
                RTKernelFullVersion := s; OSVersion := OSVersion dtk |} in
  if failed found err then Err (ErrGetField "RT_KERNEL_VERSION" err found) else
  let '(s, found, err) := NestedString obj ["RHEL_VERSION"] in
  let dtk := {| ImageURL := ImageURL dtk;
                KernelFullVersion := KernelFullVersion dtk;
                RTKernelFullVersion := RTKernelFullVersion dtk;
                OSVersion := s |} in
  if failed found err then Err (ErrGetField "RHEL_VERSION" err found) else
  Ok dtk.

(** The [for _, tag := range tags] loop of [ReleaseManifests]. *)
Fixpoint scanDriverToolkit (tags : list json) : outcome string :=
  match tags with
  | [] => Err ErrNoDriverToolkit
  | tag :: tags' =>
      m <~ assert_map tag ;;
      if iface_eq_string (m !! "name") "driver-toolkit" then
        m <~ assert_map tag ;;
        match m !! "from" with
        | None => Err ErrMissingFrom
        | Some from =>
            fm <~ assert_map from ;;
            match fm !! "name" with
            | Some (JString imageURL) => Ok imageURL
            | _ => Err ErrMissingName
            end
        end
      else scanDriverToolkit tags'
  end.

Definition ReleaseManifests (layer : Layer) : outcome string :=
  obj <~ getHeaderFromLayer layer "release-manifests/image-references" ;;
  let '(tags, found, err) := NestedSlice obj ["spec"; "tags"] in
  if failed found err then Err (ErrSpecTag err found) else
  scanDriverToolkit tags.

(** The [for _, tag := range tags] loop of [ReleaseImageMachineOSConfig]. *)
Fixpoint scanMachineOSContent (tags : list json) : outcome string :=
  match tags with
  | [] => Err ErrNoMachineOSContent
  | tag :: tags' =>
      m <~ assert_map tag ;;
      if iface_eq_string (m !! "name") "machine-os-content" then
        m <~ assert_map tag ;;
        match m !! "annotations" with
        | None => Err ErrAnnotations
        | Some annotations =>
            am <~ assert_map annotations ;;
            match am !! "io.openshift.build.versions" with
            | Some (JString osVersion) => Ok osVersion
            | _ => Err ErrBuildVersions
            end
        end
      else scanMachineOSContent tags'
  end.

Definition ReleaseImageMachineOSConfig (layer : Layer) : outcome string :=
  obj <~ getHeaderFromLayer layer "release-manifests/image-references" ;;
  let '(tags, found, err) := NestedSlice obj ["spec"; "tags"] in
  if failed found err then Err (ErrSpecTags err found) else
  scanMachineOSContent tags.

Definition getLayersDigestsFromManifestStream (manifestStream : string)
  : outcome (list string) :=
  manifest <~ of_lib (unmarshal_Manifest W manifestStream) ;;
  Ok (map (fun layer => digest_string (Digest layer)) (Layers manifest)).

(** The [for _, manifest := range manifestList.Manifests] loop of
    [getImageDigestFromMultiImage]. *)
Fixpoint findArch (arch : string) (manifests : list Descriptor) : outcome string :=
  match manifests with
  | [] => Err (ErrArchNotFound arch)
  | manifest :: manifests' =>
      match DescPlatform manifest with
      | Some platform =>
          if String.eqb (Architecture platform) arch
          then Ok (digest_string (Digest manifest))
          else findArch arch manifests'
      | None => findArch arch manifests'
      end
  end.

Definition getImageDigestFromMultiImage (manifestListStream : string)
  : outcome string :=
  let arch := GOARCH W in
  manifestList <~ of_lib (unmarshal_IndexManifest W manifestListStream) ;;
  findArch arch (Manifests manifestList).

Definition getManifestStreamFromImage (image repo : string)
    (options : list crane_Option) : M string :=
  r <- call (EvManifest image options) (crane_Manifest W image options) ;;
  manifest <- lift (of_lib r) ;;
  release <- lift (of_lib (unmarshal_object W manifest)) ;;
  let '(imageMediaType, mediaTypeFound, err) :=
    NestedString release ["mediaType"] in
  match err with
  | Some e => lift (Err (ErrAccessor e))
  | None =>
      if negb mediaTypeFound then lift (Err (ErrMediaTypeMissing image))
      else if strings_Contains imageMediaType "manifest.list" then
        archDigest <- lift (getImageDigestFromMultiImage manifest) ;;
        r <- call (EvManifest (repo ++ "@" ++ archDigest) options)
                  (crane_Manifest W (repo ++ "@" ++ archDigest) options) ;;
        lift (of_lib r)
      else mret manifest
  end.

Definition GetLayersDigests (image : string)
  : M (string * list string * list crane_Option) :=
  registry <- lift (registryFromImageURL image) ;;
  auth <- getImageRegistryCredentials registry ;;
  let repo :=
    let hash := strings_Split image "@"%char in
    if (1 <? List.length hash)%nat then default "" (head hash)
    else
      let tag := strings_Split image ":"%char in
      if (1 <? List.length tag)%nat then default "" (head tag)
      else "" in
  if String.eqb repo "" then lift (Err (ErrNoHashOrTag image)) else
  let registryAuths :=
    if negb (String.eqb (Auth auth) "")
    then [WithAuth (Email auth) (Auth auth)]
    else [] in
  manifest <- getManifestStreamFromImage image repo registryAuths ;;
  digests <- lift (getLayersDigestsFromManifestStream manifest) ;;
  mret (repo, digests, registryAuths).

Definition GetLayerByDigest (repo digest : string) (auth : list crane_Option)
  : M Layer :=
  r <- call (EvPullLayer (repo ++ "@" ++ digest) auth)
            (crane_PullLayer W (repo ++ "@" ++ digest) auth) ;;
  lift (of_lib r).

Definition LastLayer (image : string) : M Layer :=
  res <- GetLayersDigests image ;;
  let '(repo, digests, registryAuths) := res in
  digest <- lift (index digests (Z.of_nat (List.length digests) - 1)) ;;
  r <- call (EvPullLayer (repo ++ "@" ++ digest) registryAuths)
            (crane_PullLayer W (repo ++ "@" ++ digest) registryAuths) ;;
  lift (of_lib r).

End registry.

(** ** Vocabulary of the statements *)

(** The byte [c] occurs in [s]. *)
Fixpoint has_byte (s : string) (c : Ascii.ascii) : bool :=
  match s with
  | EmptyString => false
  | String c' s' => Ascii.eqb c' c || has_byte s' c
  end.

(** The object has [field], holding a string. *)
Definition has_string_field (obj : gmap string json) (field : string) : Prop :=
  exists s, obj !! field = Some (JString s).

(** The call failed with the missing-field error of [field]. *)
Definition names_field {A : Type} (o : outcome A) (field : string) : Prop :=
  exists cause found, o = Err (ErrGetField field cause found).


(** A tag element that is an object and is not named [name]. *)
Definition other_tag (name : string) (tag : json) : Prop :=
  exists m, tag = JObject m /\ m !! "name" <> Some (JString name).

(** An index entry that is not for [arch]: no platform, or another one. *)
Definition other_arch (arch : string) (d : Descriptor) : Prop :=
  forall p, DescPlatform d = Some p -> Architecture p <> arch.

(** Every registry call among [evs] carries no option. *)
Definition anonymous_calls (evs : list event) : Prop :=
  Forall (fun ev => match ev with
                    | EvManifest _ options | EvPullLayer _ options => options = []
                    | EvGetSecret _ _ => True
                    end) evs.

(** The tar items of well-read entries, each a name with what reading its
    content gives. *)
Definition headers (entries : list (string * lib_result string)) : list tar_next :=
  map (fun e => TarHeader (fst e) (snd e)) entries.

(** ** A small cluster and registry to run the package on

    The documents are named, not spelled out: each name stands for the bytes
    of the JSON document described next to it, and the decoders map the name
    to what encoding/json yields for those bytes. *)
Module Fixture.

Definition table {A : Type} (rows : list (string * A)) (missing : lib_error)
    (key : string) : lib_result A :=
  match List.find (fun row => String.eqb (fst row) key) rows with
  | Some row => inr (snd row)
  | None => inl missing
  end.

(** [url.Parse] on the references used here: a reference without scheme has
    no host; after "//" the host runs up to the first "/". *)
Definition parse (rawURL : string) : lib_result URL :=
  match rawURL with
  | String "/" (String "/" rest) =>
      inr {| Host := default "" (head (strings_Split rest "/"%char)) |}
  | _ => inr {| Host := "" |}
  end.

(** The pull secret: reg.io with a token, localhost:5000 with an empty one. *)
Definition auths : gmap string dockerAuth :=
  <["reg.io" := {| Auth := "abc"; Email := "e@x.com" |}]>
    {["localhost:5000" := {| Auth := ""; Email := "" |}]}.

Definition secrets (namespace name : string) : lib_result Secret :=
  if String.eqb namespace "openshift-config" && String.eqb name "pull-secret"
  then inr {| Data := {[".dockerconfigjson" := "pull-secret.json"]} |}
  else inl "secrets not found".

Definition sha (hex : string) : Hash := {| Algorithm := "sha256"; Hex := hex |}.
Definition L0 : Descriptor := {| Digest := sha "a0"; DescPlatform := None |}.
Definition L1 : Descriptor := {| Digest := sha "a1"; DescPlatform := None |}.
Definition L2 : Descriptor := {| Digest := sha "a2"; DescPlatform := None |}.
Definition D1 : Descriptor :=
  {| Digest := sha "d1"; DescPlatform := Some {| Architecture := "amd64" |} |}.
Definition D2 : Descriptor :=
  {| Digest := sha "d2"; DescPlatform := Some {| Architecture := "arm64" |} |}.

Definition list_type : string :=
  "application/vnd.docker.distribution.manifest.list.v2+json".
Definition image_type : string :=
  "application/vnd.docker.distribution.manifest.v2+json".

(** etc/driver-toolkit-release.json with the three fields, and without
    RT_KERNEL_VERSION. *)
Definition release : gmap string json :=
  <["KERNEL_VERSION" := JString "5.14.0"]>
    (<["RT_KERNEL_VERSION" := JString "5.14.0-rt"]>
       {["RHEL_VERSION" := JString "9.2"]}).
Definition release_no_rt : gmap string json :=
  <["KERNEL_VERSION" := JString "5.14.0"]> {["RHEL_VERSION" := JString "9.2"]}.

(** release-manifests/image-references: the two tags, then a string where a
    tag object is expected; and the same with the string first. *)
Definition dtk_tag : json :=
  JObject (<["name" := JString "driver-toolkit"]>
             {["from" := JObject {["name" := JString "reg.io/dtk:v1"]}]}).
Definition mos_tag : json :=
  JObject (<["name" := JString "machine-os-content"]>
             {["annotations" :=
                 JObject {["io.openshift.build.versions" :=
                             JString "machine-os=49.84"]}]}).
Definition references (tags : list json) : gmap string json :=
  {["spec" := JObject {["tags" := JArray tags]}]}.

Definition objects : list (string * gmap string json) :=
  [("index.json", {["mediaType" := JString list_type]});
   ("manifest.json", {["mediaType" := JString image_type]});
   ("no-layers.json", {["mediaType" := JString image_type]});
   ("release.json", release);
   ("release-no-rt.json", release_no_rt);
   ("empty-object.json", ∅);
   ("references-late.json", references [dtk_tag; mos_tag; JString "stray"]);
   ("references-early.json", references [JString "stray"; dtk_tag; mos_tag])].

Definition archive (file doc : string) : Layer :=
  TarGz [TarHeader "a/b.json" (inr "empty-object.json");
         TarHeader file (inr doc);
         TarHeader "c.txt" (inl "unexpected EOF")].

Definition manifests (ref : string) (options : list crane_Option)
  : lib_result string :=
  table [("reg.io/dtk:v1", "index.json");
         ("reg.io/dtk@sha256:d1", "manifest.json");
         ("reg.io/dtk@sha256:aa", "manifest.json");
         ("reg.io/scratch:v1", "no-layers.json")]
        "MANIFEST_UNKNOWN" ref.

Definition layers (ref : string) (options : list crane_Option)
  : lib_result Layer :=
  table [("reg.io/dtk@sha256:a2",
          archive "etc/driver-toolkit-release.json" "release.json")]
        "BLOB_UNKNOWN" ref.

Definition world : World :=
  {| GOARCH := "amd64";
     url_Parse := parse;
     GetSecret := secrets;
     crane_Manifest := manifests;
     crane_PullLayer := layers;
     unmarshal_auths := table [("pull-secret.json", auths)] "unexpected end of JSON input";
     unmarshal_object := table objects "unexpected end of JSON input";
     unmarshal_Manifest :=
       table [("manifest.json", {| Layers := [L0; L1; L2] |});
              ("no-layers.json", {| Layers := [] |})]
             "unexpected end of JSON input";
     unmarshal_IndexManifest :=
       table [("index.json", {| Manifests := [D2; D1] |})]
             "unexpected end of JSON input" |}.

End Fixture.

(** ** More vocabulary, and clusters and registries that fail *)

(** The event is a manifest fetch carrying [options]. *)
Definition manifest_call (options : list crane_Option) (ev : event) : Prop :=
  exists ref, ev = EvManifest ref options.

(** The event is not the pull of a layer. *)
Definition not_a_pull (ev : event) : Prop :=
  forall ref options, ev <> EvPullLayer ref options.

(** Every registry call among [evs] carries exactly [options]. *)
Definition calls_with (options : list crane_Option) (evs : list event) : Prop :=
  Forall (fun ev => match ev with
                    | EvManifest _ o | EvPullLayer _ o => o = options
                    | EvGetSecret _ _ => True
                    end) evs.

(** The reference has nothing before its separator, or no separator: it
    has neither "@" nor ":", or it starts with "@", or it has no "@" and
    starts with ":". *)
Definition no_repository (image : string) : Prop :=
  (has_byte image "@" = false /\ has_byte image ":" = false) \/
  (exists rest, image = "@" ++ rest) \/
  (has_byte image "@" = false /\ exists rest, image = ":" ++ rest).

(** [repo] is what stands in [image] before its first "@", or before its
    first ":" when it has no "@". *)
Definition repository_of (image repo : string) : Prop :=
  (exists rest, image = repo ++ "@" ++ rest /\ has_byte repo "@" = false) \/
  (has_byte image "@" = false /\
   exists rest, image = repo ++ ":" ++ rest /\ has_byte repo ":" = false).

Module Faults.

Definition with_secrets (secrets : string -> string -> lib_result Secret)
    (W : World) : World :=
  {| GOARCH := GOARCH W;
     url_Parse := url_Parse W;
     GetSecret := secrets;
     crane_Manifest := crane_Manifest W;
     crane_PullLayer := crane_PullLayer W;
     unmarshal_auths := unmarshal_auths W;
     unmarshal_object := unmarshal_object W;
     unmarshal_Manifest := unmarshal_Manifest W;
     unmarshal_IndexManifest := unmarshal_IndexManifest W |}.

(** The API server does not answer. *)
Definition unreachable : World :=
  with_secrets (fun _ _ => inl "connection refused") Fixture.world.

(** The pull secret has no .dockerconfigjson entry. *)
Definition bare : World :=
  with_secrets (fun _ _ => inr {| Data := ∅ |}) Fixture.world.

(** The .dockerconfigjson entry is cut short. *)
Definition garbled : World :=
  with_secrets
    (fun _ _ => inr {| Data := {[".dockerconfigjson" := "truncated.json"]} |})
    Fixture.world.

(** A tar stream that breaks after its first entry. *)
Definition broken (file doc : string) : Layer :=
  TarGz [TarHeader "a/b.json" (inr "empty-object.json");
         TarFail "unexpected EOF";
         TarHeader file (inr doc)].

Definition oci_index_type : string := "application/vnd.oci.image.index.v1+json".

(** Tags that name the entry looked for but are not as expected. *)
Definition dtk_no_from : json :=
  JObject {["name" := JString "driver-toolkit"]}.
Definition dtk_from_string : json :=
  JObject (<["name" := JString "driver-toolkit"]>
             {["from" := JString "reg.io/dtk:v1"]}).
Definition dtk_from_unnamed : json :=
  JObject (<["name" := JString "driver-toolkit"]> {["from" := JObject ∅]}).
Definition mos_no_annotations : json :=
  JObject {["name" := JString "machine-os-content"]}.
Definition other : json := JObject {["name" := JString "foo"]}.

Definition objects : list (string * gmap string json) :=
  [("references-no-from.json",
    Fixture.references [other; dtk_no_from; mos_no_annotations]);
   ("references-from-string.json", Fixture.references [other; dtk_from_string]);
   ("references-from-unnamed.json", Fixture.references [other; dtk_from_unnamed]);
   ("references-others.json", Fixture.references [other]);
   ("references-found.json",
    Fixture.references [other; Fixture.dtk_tag; Fixture.mos_tag; dtk_no_from]);
   ("tags-not-array.json", {["spec" := JObject {["tags" := JString "none"]}]});
   ("release-number.json",
    <["KERNEL_VERSION" := JNumber 0]> Fixture.release);
   ("oci-index.json", {["mediaType" := JString oci_index_type]});
   ("numeric-type.json", {["mediaType" := JNumber 0]})].

Definition manifests (ref : string) (options : list crane_Option)
  : lib_result string :=
  Fixture.table [("reg.io/oci:v1", "oci-index.json");
                 ("reg.io/untyped:v1", "empty-object.json");
                 ("reg.io/odd:v1", "numeric-type.json");
                 ("reg.io/cut:v1", "truncated.json");
                 ("localhost:5000/repo@sha256:aa", "manifest.json")]
                "MANIFEST_UNKNOWN" ref.

Definition world : World :=
  {| GOARCH := "amd64";
     url_Parse := Fixture.parse;
     GetSecret := Fixture.secrets;
     crane_Manifest := manifests;
     crane_PullLayer := Fixture.layers;
     unmarshal_auths := unmarshal_auths Fixture.world;
     unmarshal_object :=
       Fixture.table (objects ++ Fixture.objects)%list "unexpected end of JSON input";
     unmarshal_Manifest := unmarshal_Manifest Fixture.world;
     unmarshal_IndexManifest := unmarshal_IndexManifest Fixture.world |}.

End Faults.

(** * Properties *)

Local Open Scope go_scope.

(** ** Accessors *)

Lemma NestedString_string obj field s :
  obj !! field = Some (JString s) ->
  NestedString obj [field] = (s, true, None).
Proof.
  intros H. unfold NestedString, NestedFieldNoCopy. simpl. by rewrite H.
Qed.

Lemma NestedString_found obj field s found err :
  NestedString obj [field] = (s, found, err) ->
  failed found err = false ->
  obj !! field = Some (JString s).
Proof.
  unfold NestedString, NestedFieldNoCopy. simpl.
  destruct (obj !! field) as [v|] eqn:E; simpl.
  - destruct v; cbn; intros [= <- <- <-]; cbn; intros; congruence.
  - cbn. intros [= <- <- <-]. discriminate.
Qed.

Lemma NestedString_not_string obj field :
  ~ has_string_field obj field ->
  exists s found err,
    NestedString obj [field] = (s, found, err) /\ failed found err = true.
Proof.
  intros H. destruct (NestedString obj [field]) as [[s found] err] eqn:E.
  exists s, found, err. split; [done|].
  destruct (failed found err) eqn:F; [done|].
  exfalso. apply H. exists s. by eapply NestedString_found.
Qed.

Lemma NestedSlice_tags obj spec tags :
  obj !! "spec" = Some (JObject spec) ->
  spec !! "tags" = Some (JArray tags) ->
  NestedSlice obj ["spec"; "tags"] = (tags, true, None).
Proof.
  intros H1 H2. unfold NestedSlice, NestedFieldNoCopy. simpl.
  rewrite H1. simpl. by rewrite H2.
Qed.

(** ** The tar scan *)

Lemma scanHeaders_skip W headerName entries tr :
  Forall (fun e => fst e <> headerName) entries ->
  scanHeaders W headerName (headers entries ++ tr) = scanHeaders W headerName tr.
Proof.
  induction 1 as [|[name content] entries Hne _ IH]; [done|].
  simpl in *. destruct (String.eqb_spec name headerName); [done|]. apply IH.
Qed.

Lemma scanHeaders_exhausted W headerName entries :
  Forall (fun e => fst e <> headerName) entries ->
  scanHeaders W headerName (headers entries)
  = (Err (ErrHeaderNotFound headerName), []).
Proof.
  intros H. rewrite <- (app_nil_r (headers entries)).
  by rewrite scanHeaders_skip.
Qed.

(** C2: the scan goes through the entries in stream order; at the first
    entry named exactly [headerName] it reads that entry, decodes it and
    returns, leaving the entries after it unread in the reader; when the
    entries run out with no entry of that name, the error is the
    header-not-found error of [headerName]. *)
Theorem getHeaderFromLayer_first_match W headerName before content after :
  Forall (fun e => fst e <> headerName) before ->
  scanHeaders W headerName (headers before ++ TarHeader headerName content :: after)
  = (match content with
     | inl e => Err (ErrLib e)
     | inr buff => match unmarshal_object W buff with
                   | inl e => Err (ErrLib e)
                   | inr obj => Ok obj
                   end
     end, after)
  /\ getHeaderFromLayer W
       (TarGz (headers before ++ TarHeader headerName content :: after)) headerName
     = match content with
       | inl e => Err (ErrLib e)
       | inr buff => match unmarshal_object W buff with
                     | inl e => Err (ErrLib e)
                     | inr obj => Ok obj
                     end
       end
  /\ scanHeaders W headerName (headers before)
     = (Err (ErrHeaderNotFound headerName), [])
  /\ getHeaderFromLayer W (TarGz (headers before)) headerName
     = Err (ErrHeaderNotFound headerName).
Proof.
  intros Hne.
  assert (scanHeaders W headerName
            (headers before ++ TarHeader headerName content :: after)
          = (match content with
             | inl e => Err (ErrLib e)
             | inr buff => match unmarshal_object W buff with
                           | inl e => Err (ErrLib e)
                           | inr obj => Ok obj
                           end
             end, after)) as Hscan.
  { rewrite scanHeaders_skip by done. simpl. rewrite String.eqb_refl.
    destruct content as [e|buff]; [done|]. simpl.
    by destruct (unmarshal_object W buff). }
  repeat split.
  - exact Hscan.
  - simpl. by rewrite Hscan.
  - by apply scanHeaders_exhausted.
  - simpl. by rewrite scanHeaders_exhausted.
Qed.

Lemma getHeaderFromLayer_first_match_witness :
  scanHeaders Fixture.world "etc/driver-toolkit-release.json"
    [TarHeader "a/b.json" (inr "empty-object.json");
     TarHeader "etc/driver-toolkit-release.json" (inr "release.json");
     TarHeader "c.txt" (inl "unexpected EOF")]
  = (Ok Fixture.release, [TarHeader "c.txt" (inl "unexpected EOF")]).
Proof.
  refine (proj1 (getHeaderFromLayer_first_match Fixture.world
                   "etc/driver-toolkit-release.json"
                   [("a/b.json", inr "empty-object.json")]
                   (inr "release.json")
                   [TarHeader "c.txt" (inl "unexpected EOF")] _)).
  repeat constructor. simpl. discriminate.
Defined.

(** ** The driver-toolkit release file *)

Lemma ExtractToolkitRelease_Ok_inv W layer dtk :
  ExtractToolkitRelease W layer = Ok dtk ->
  exists obj,
    getHeaderFromLayer W layer "etc/driver-toolkit-release.json" = Ok obj /\
    obj !! "KERNEL_VERSION" = Some (JString (KernelFullVersion dtk)) /\
    obj !! "RT_KERNEL_VERSION" = Some (JString (RTKernelFullVersion dtk)) /\
    obj !! "RHEL_VERSION" = Some (JString (OSVersion dtk)) /\
    ImageURL dtk = "".
Proof.
  unfold ExtractToolkitRelease.
  destruct (getHeaderFromLayer W layer _) as [obj| |]; simpl; [|done..].
  destruct (NestedString obj ["KERNEL_VERSION"]) as [[k fk] ek] eqn:Ek.
  destruct (failed fk ek) eqn:Fk; [done|].
  destruct (NestedString obj ["RT_KERNEL_VERSION"]) as [[rt frt] ert] eqn:Ert.
  destruct (failed frt ert) eqn:Frt; [done|].
  destruct (NestedString obj ["RHEL_VERSION"]) as [[os fos] eos] eqn:Eos.
  destruct (failed fos eos) eqn:Fos; [done|].
  intros [= <-]. exists obj. simpl.
  eauto 10 using NestedString_found.
Qed.




(** C7, as the code has it: the fields are read in the order KERNEL_VERSION,
    RT_KERNEL_VERSION, RHEL_VERSION, and the error names the first of them
    that is not a string field of the file. *)
Theorem ExtractToolkitRelease_first_missing W layer obj :
  getHeaderFromLayer W layer "etc/driver-toolkit-release.json" = Ok obj ->
  (~ has_string_field obj "KERNEL_VERSION" ->
   names_field (ExtractToolkitRelease W layer) "KERNEL_VERSION") /\
  (has_string_field obj "KERNEL_VERSION" ->
   ~ has_string_field obj "RT_KERNEL_VERSION" ->
   names_field (ExtractToolkitRelease W layer) "RT_KERNEL_VERSION") /\
  (has_string_field obj "KERNEL_VERSION" ->
   has_string_field obj "RT_KERNEL_VERSION" ->
   ~ has_string_field obj "RHEL_VERSION" ->
   names_field (ExtractToolkitRelease W layer) "RHEL_VERSION").
Proof.
  intros Hobj. unfold ExtractToolkitRelease. rewrite Hobj. simpl.
  repeat split.
  - intros (s & found & err & -> & ->)%NestedString_not_string.
    by exists err, found.
  - intros [k Hk] (s & found & err & E & F)%NestedString_not_string.
    rewrite (NestedString_string _ _ _ Hk). simpl. rewrite E, F.
    by exists err, found.
  - intros [k Hk] [rt Hrt] (s & found & err & E & F)%NestedString_not_string.
    rewrite (NestedString_string _ _ _ Hk). simpl.
    rewrite (NestedString_string _ _ _ Hrt). simpl. rewrite E, F.
    by exists err, found.
Qed.

Lemma ExtractToolkitRelease_first_missing_witness :
  names_field
    (ExtractToolkitRelease Fixture.world
       (Fixture.archive "etc/driver-toolkit-release.json" "release-no-rt.json"))
    "RT_KERNEL_VERSION".
Proof.
  refine (proj1 (proj2 (ExtractToolkitRelease_first_missing Fixture.world
                          _ Fixture.release_no_rt _)) _ _).
  - reflexivity.
  - by exists "5.14.0".
  - intros [s Hs]. vm_compute in Hs. discriminate.
Defined.

(** C7, as the claim has it, fails: a release file that lacks
    RT_KERNEL_VERSION and KERNEL_VERSION as well gives the error of
    KERNEL_VERSION, not the one of RT_KERNEL_VERSION. *)
Lemma ExtractToolkitRelease_names_kernel_first :
  let layer :=
    Fixture.archive "etc/driver-toolkit-release.json" "empty-object.json" in
  getHeaderFromLayer Fixture.world layer "etc/driver-toolkit-release.json"
    = Ok ∅ /\
  ~ has_string_field ∅ "RT_KERNEL_VERSION" /\
  ExtractToolkitRelease Fixture.world layer
    = Err (ErrGetField "KERNEL_VERSION" None false) /\
  ~ names_field (ExtractToolkitRelease Fixture.world layer) "RT_KERNEL_VERSION".
Proof.
  simpl. split; [reflexivity|]. split.
  - intros [s Hs]. by rewrite lookup_empty in Hs.
  - split; [reflexivity|]. intros (cause & found & H). vm_compute in H.
    discriminate.
Qed.

(** ** The image-references file *)

Lemma iface_eq_string_other v s :
  v <> Some (JString s) -> iface_eq_string v s = false.
Proof.
  destruct v as [[]|]; simpl; try done.
  intros H. destruct (String.eqb_spec s0 s); [congruence|done].
Qed.

Lemma assert_map_not_object bad :
  (forall m, bad <> JObject m) ->
  assert_map bad = Panic (PanicInterfaceConversion bad "map[string]interface {}").
Proof. intros H. destruct bad; try done. by destruct (H fields). Qed.

Lemma scanDriverToolkit_skip before tags :
  Forall (other_tag "driver-toolkit") before ->
  scanDriverToolkit (before ++ tags) = scanDriverToolkit tags.
Proof.
  induction 1 as [|tag before (m & -> & Hname) _ IH]; [done|].
  simpl. by rewrite iface_eq_string_other.
Qed.

Lemma scanMachineOSContent_skip before tags :
  Forall (other_tag "machine-os-content") before ->
  scanMachineOSContent (before ++ tags) = scanMachineOSContent tags.
Proof.
  induction 1 as [|tag before (m & -> & Hname) _ IH]; [done|].
  simpl. by rewrite iface_eq_string_other.
Qed.

(** C9, as the code has it: the scan asserts each element it reaches to be
    an object, so it panics at an element that is not one when every element
    before it is an object not named as the tag looked for; the scan stops
    at the first element so named and never reaches what follows it. *)
Theorem tag_scan_panics_at_non_object W layer obj spec before bad after :
  getHeaderFromLayer W layer "release-manifests/image-references" = Ok obj ->
  obj !! "spec" = Some (JObject spec) ->
  spec !! "tags" = Some (JArray (before ++ bad :: after)) ->
  (forall m, bad <> JObject m) ->
  (Forall (other_tag "driver-toolkit") before ->
   ReleaseManifests W layer
   = Panic (PanicInterfaceConversion bad "map[string]interface {}")) /\
  (Forall (other_tag "machine-os-content") before ->
   ReleaseImageMachineOSConfig W layer
   = Panic (PanicInterfaceConversion bad "map[string]interface {}")).
Proof.
  intros Hobj Hspec Htags Hbad.
  unfold ReleaseManifests, ReleaseImageMachineOSConfig.
  rewrite Hobj. simpl. rewrite (NestedSlice_tags _ _ _ Hspec Htags). simpl.
  split; intros Hbefore.
  - rewrite scanDriverToolkit_skip by done. simpl.
    by rewrite assert_map_not_object.
  - rewrite scanMachineOSContent_skip by done. simpl.
    by rewrite assert_map_not_object.
Qed.

Lemma tag_scan_panics_at_non_object_witness :
  let layer :=
    Fixture.archive "release-manifests/image-references" "references-early.json" in
  ReleaseManifests Fixture.world layer
  = Panic (PanicInterfaceConversion (JString "stray") "map[string]interface {}") /\
  ReleaseImageMachineOSConfig Fixture.world layer
  = Panic (PanicInterfaceConversion (JString "stray") "map[string]interface {}").
Proof.
  simpl.
  destruct (tag_scan_panics_at_non_object Fixture.world
              (Fixture.archive "release-manifests/image-references"
                 "references-early.json")
              (Fixture.references [JString "stray"; Fixture.dtk_tag; Fixture.mos_tag])
              {["tags" := JArray [JString "stray"; Fixture.dtk_tag; Fixture.mos_tag]]}
              [] (JString "stray") [Fixture.dtk_tag; Fixture.mos_tag])
    as [H1 H2]; try reflexivity; try discriminate.
  split; [apply H1 | apply H2]; constructor.
Defined.

(** C9, as the claim has it, fails: with the driver-toolkit and
    machine-os-content tags ahead of an element that is not an object, both
    scans return their value and do not panic. *)
Lemma tag_scan_returns_before_non_object :
  let layer :=
    Fixture.archive "release-manifests/image-references" "references-late.json" in
  let tags := [Fixture.dtk_tag; Fixture.mos_tag; JString "stray"] in
  getHeaderFromLayer Fixture.world layer "release-manifests/image-references"
    = Ok (Fixture.references tags) /\
  NestedSlice (Fixture.references tags) ["spec"; "tags"] = (tags, true, None) /\
  (JString "stray" ∈ tags /\ forall m, JString "stray" <> JObject m) /\
  ReleaseManifests Fixture.world layer = Ok "reg.io/dtk:v1" /\
  ReleaseImageMachineOSConfig Fixture.world layer = Ok "machine-os=49.84".
Proof.
  simpl. repeat split; try reflexivity; try discriminate.
  set_solver.
Qed.

(** ** Splitting the reference *)

Lemma strings_Split_none s c :
  has_byte s c = false -> strings_Split s c = [s].
Proof.
  induction s as [|c' s IH]; [done|]. simpl.
  destruct (Ascii.eqb c' c); [done|]. simpl. intros H. by rewrite IH.
Qed.

Lemma strings_Split_first s1 c s2 :
  has_byte s1 c = false ->
  strings_Split (s1 ++ String c s2) c = s1 :: strings_Split s2 c.
Proof.
  induction s1 as [|c' s1 IH]; simpl.
  - by rewrite Ascii.eqb_refl.
  - destruct (Ascii.eqb c' c); [done|]. simpl. intros H. by rewrite IH.
Qed.

Lemma strings_Split_length s c : (1 <= List.length (strings_Split s c))%nat.
Proof.
  induction s as [|c' s IH]; simpl; [lia|].
  destruct (Ascii.eqb c' c); simpl; [lia|].
  destruct (strings_Split s c); simpl in *; lia.
Qed.

(** ** Credentials *)

Section credentials.

Context (W : World) (secret : Secret) (doc : string)
        (auths : gmap string dockerAuth).
Hypothesis Hsecret : GetSecret W pullSecretNamespace pullSecretName = inr secret.
Hypothesis Hdata : Data secret !! pullSecretFileName = Some doc.
Hypothesis Hauths : unmarshal_auths W doc = inr auths.

Lemma getImageRegistryCredentials_lookup registry tr :
  getImageRegistryCredentials W registry tr
  = (match auths !! registry with
     | Some auth => Ok auth
     | None => Err (ErrNoAuthForRegistry registry)
     end,
     (tr ++ [EvGetSecret pullSecretNamespace pullSecretName])%list).
Proof.
  unfold getImageRegistryCredentials, mbind, call, lift, mret.
  rewrite Hsecret, Hdata, Hauths. by destruct (auths !! registry).
Qed.

End credentials.

(** ** Manifest resolution *)

Lemma findArch_skip arch before manifests :
  Forall (other_arch arch) before ->
  findArch arch (before ++ manifests) = findArch arch manifests.
Proof.
  induction 1 as [|d before Hd _ IH]; [done|]. simpl.
  destruct (DescPlatform d) as [p|] eqn:E; [|done].
  destruct (String.eqb_spec (Architecture p) arch); [|done].
  by destruct (Hd p).
Qed.

Lemma findArch_none arch manifests :
  Forall (other_arch arch) manifests ->
  findArch arch manifests = Err (ErrArchNotFound arch).
Proof.
  intros H. rewrite <- (app_nil_r manifests). by rewrite findArch_skip.
Qed.

Lemma findArch_error arch manifests e :
  findArch arch manifests = Err e -> e = ErrArchNotFound arch.
Proof.
  induction manifests as [|d manifests IH]; simpl; [congruence|].
  repeat case_match; auto; discriminate.
Qed.

Lemma getManifestStreamFromImage_calls W image repo options tr :
  exists evs,
    snd (getManifestStreamFromImage W image repo options tr) = (tr ++ evs)%list /\
    Forall (fun ev => exists ref, ev = EvManifest ref options) evs.
Proof.
  unfold getManifestStreamFromImage, mbind, call, lift, mret.
  repeat (case_match; simplify_eq/=);
    eexists; (split; [rewrite <- ?(assoc_L (++)%list); reflexivity|]);
    repeat constructor; eauto.
Qed.

Lemma getManifestStreamFromImage_error W image repo options tr e tr' :
  getManifestStreamFromImage W image repo options tr = (Err e, tr') ->
  forall img, e <> ErrNoHashOrTag img.
Proof.
  unfold getManifestStreamFromImage, getImageDigestFromMultiImage,
    mbind, call, lift, mret, of_lib, obind.
  intros H img ->.
  repeat (case_match; simplify_eq/=).
  match goal with
  | H : findArch _ _ = Err _ |- _ => by apply findArch_error in H
  end.
Qed.

(** C4: when the manifest fetched for [image] has a media type of a manifest
    list, the first entry of the list whose platform architecture is the
    architecture of the process is selected and the manifest is fetched
    again at [repo@digest] of that entry; when no entry is for that
    architecture, the error is the architecture-not-found error naming it,
    and nothing more is fetched. *)
Theorem manifest_list_selects_arch W image repo options manifest release
    mediaType manifestList tr :
  crane_Manifest W image options = inr manifest ->
  unmarshal_object W manifest = inr release ->
  release !! "mediaType" = Some (JString mediaType) ->
  strings_Contains mediaType "manifest.list" = true ->
  unmarshal_IndexManifest W manifest = inr manifestList ->
  (forall before entry platform after,
     Manifests manifestList = (before ++ entry :: after)%list ->
     Forall (other_arch (GOARCH W)) before ->
     DescPlatform entry = Some platform ->
     Architecture platform = GOARCH W ->
     getManifestStreamFromImage W image repo options tr
     = (of_lib (crane_Manifest W
                  (repo ++ "@" ++ Algorithm (Digest entry) ++ ":" ++ Hex (Digest entry))
                  options),
        (tr ++ [EvManifest image options;
                EvManifest
                  (repo ++ "@" ++ Algorithm (Digest entry) ++ ":" ++ Hex (Digest entry))
                  options])%list)) /\
  (Forall (other_arch (GOARCH W)) (Manifests manifestList) ->
   getManifestStreamFromImage W image repo options tr
   = (Err (ErrArchNotFound (GOARCH W)), (tr ++ [EvManifest image options])%list)).
Proof.
  intros Hfetch Hrelease Htype Hlist Hindex.
  unfold getManifestStreamFromImage, getImageDigestFromMultiImage,
    mbind, call, lift, mret.
  rewrite Hfetch. simpl. rewrite Hrelease. simpl.
  rewrite (NestedString_string _ _ _ Htype). simpl. rewrite Hlist, Hindex. simpl.
  split.
  - intros before entry platform after -> Hbefore Hplatform Harch.
    rewrite findArch_skip by done. simpl.
    rewrite Hplatform, Harch, String.eqb_refl. unfold digest_string.
    by rewrite <- (assoc_L (++)%list).
  - intros Hnone. by rewrite findArch_none.
Qed.

Lemma manifest_list_selects_arch_witness :
  getManifestStreamFromImage Fixture.world "reg.io/dtk:v1" "reg.io/dtk" [] []
  = (Ok "manifest.json",
     [EvManifest "reg.io/dtk:v1" []; EvManifest "reg.io/dtk@sha256:d1" []]).
Proof.
  refine (proj1 (manifest_list_selects_arch Fixture.world
                   "reg.io/dtk:v1" "reg.io/dtk" [] "index.json"
                   {["mediaType" := JString Fixture.list_type]}
                   Fixture.list_type {| Manifests := [Fixture.D2; Fixture.D1] |}
                   [] _ _ _ _ _)
                [Fixture.D2] Fixture.D1 {| Architecture := "amd64" |} [] _ _ _ _);
    try reflexivity.
  repeat constructor. intros p [= <-]. discriminate.
Defined.

(** ** Digests and the last layer *)

Lemma getLayersDigestsFromManifestStream_map W manifestStream manifest :
  unmarshal_Manifest W manifestStream = inr manifest ->
  getLayersDigestsFromManifestStream W manifestStream
  = Ok (map (fun layer => digest_string (Digest layer)) (Layers manifest)).
Proof.
  intros H. unfold getLayersDigestsFromManifestStream. by rewrite H.
Qed.

Lemma index_last {A : Type} (front : list A) (a : A) :
  index (front ++ [a]) (Z.of_nat (List.length (front ++ [a])) - 1) = Ok a.
Proof.
  unfold index. rewrite length_app. simpl.
  rewrite bool_decide_eq_true_2 by lia.
  replace (Z.to_nat (Z.of_nat (List.length front + 1) - 1))
    with (List.length front + 0)%nat by lia.
  by rewrite lookup_app_r, Nat.add_comm, Nat.add_sub by lia.
Qed.

Lemma LastLayer_resolved W image tr repo digests options tr' :
  GetLayersDigests W image tr = (Ok (repo, digests, options), tr') ->
  LastLayer W image tr
  = match index digests (Z.of_nat (List.length digests) - 1) with
    | Ok digest =>
        (of_lib (crane_PullLayer W (repo ++ "@" ++ digest) options),
         (tr' ++ [EvPullLayer (repo ++ "@" ++ digest) options])%list)
    | Err e => (Err e, tr')
    | Panic p => (Panic p, tr')
    end.
Proof.
  intros H. unfold LastLayer, mbind, call, lift. rewrite H.
  by destruct (index digests _).
Qed.

Lemma LastLayer_last W image tr repo front digest options tr' :
  GetLayersDigests W image tr = (Ok (repo, (front ++ [digest])%list, options), tr') ->
  LastLayer W image tr
  = (of_lib (crane_PullLayer W (repo ++ "@" ++ digest) options),
     (tr' ++ [EvPullLayer (repo ++ "@" ++ digest) options])%list).
Proof.
  intros H. rewrite (LastLayer_resolved _ _ _ _ _ _ _ H). by rewrite index_last.
Qed.

(** C3: the digests of a manifest with layers L0, L1, L2 are those of L0, L1
    and L2 in that order, each as algorithm:hex; and when the resolution of
    an image gives that list, LastLayer makes one more call, the pull of the
    layer at repository@digest of L2, and returns what that call returns. *)
Theorem digests_keep_layer_order W manifestStream manifest L0 L1 L2 :
  unmarshal_Manifest W manifestStream = inr manifest ->
  Layers manifest = [L0; L1; L2] ->
  getLayersDigestsFromManifestStream W manifestStream
  = Ok [Algorithm (Digest L0) ++ ":" ++ Hex (Digest L0);
        Algorithm (Digest L1) ++ ":" ++ Hex (Digest L1);
        Algorithm (Digest L2) ++ ":" ++ Hex (Digest L2)] /\
  forall image repo options tr tr',
    GetLayersDigests W image tr
    = (Ok (repo,
           [Algorithm (Digest L0) ++ ":" ++ Hex (Digest L0);
            Algorithm (Digest L1) ++ ":" ++ Hex (Digest L1);
            Algorithm (Digest L2) ++ ":" ++ Hex (Digest L2)],
           options), tr') ->
    LastLayer W image tr
    = (of_lib (crane_PullLayer W
                 (repo ++ "@" ++ Algorithm (Digest L2) ++ ":" ++ Hex (Digest L2))
                 options),
       (tr' ++ [EvPullLayer
                  (repo ++ "@" ++ Algorithm (Digest L2) ++ ":" ++ Hex (Digest L2))
                  options])%list).
Proof.
  intros Hdecode Hlayers. split.
  - rewrite (getLayersDigestsFromManifestStream_map _ _ _ Hdecode).
    by rewrite Hlayers.
  - intros image repo options tr tr' H.
    by apply (LastLayer_last W image tr repo
                [Algorithm (Digest L0) ++ ":" ++ Hex (Digest L0);
                 Algorithm (Digest L1) ++ ":" ++ Hex (Digest L1)]).
Qed.

Lemma digests_keep_layer_order_witness :
  getLayersDigestsFromManifestStream Fixture.world "manifest.json"
  = Ok ["sha256:a0"; "sha256:a1"; "sha256:a2"] /\
  LastLayer Fixture.world "reg.io/dtk:v1" []
  = (Ok (Fixture.archive "etc/driver-toolkit-release.json" "release.json"),
     [EvGetSecret "openshift-config" "pull-secret";
      EvManifest "reg.io/dtk:v1" [WithAuth "e@x.com" "abc"];
      EvManifest "reg.io/dtk@sha256:d1" [WithAuth "e@x.com" "abc"];
      EvPullLayer "reg.io/dtk@sha256:a2" [WithAuth "e@x.com" "abc"]]).
Proof.
  destruct (digests_keep_layer_order Fixture.world "manifest.json"
              {| Layers := [Fixture.L0; Fixture.L1; Fixture.L2] |}
              Fixture.L0 Fixture.L1 Fixture.L2) as [H1 H2];
    try reflexivity.
  split; [exact H1|].
  apply (H2 "reg.io/dtk:v1" "reg.io/dtk" [WithAuth "e@x.com" "abc"] []
            [EvGetSecret "openshift-config" "pull-secret";
             EvManifest "reg.io/dtk:v1" [WithAuth "e@x.com" "abc"];
             EvManifest "reg.io/dtk@sha256:d1" [WithAuth "e@x.com" "abc"]]).
  reflexivity.
Defined.

Lemma GetLayersDigests_Ok_inv W image tr repo digests options tr' :
  GetLayersDigests W image tr = (Ok (repo, digests, options), tr') ->
  exists tr1 manifestStream manifest,
    getManifestStreamFromImage W image repo options tr1 = (Ok manifestStream, tr') /\
    unmarshal_Manifest W manifestStream = inr manifest /\
    digests = map (fun layer => digest_string (Digest layer)) (Layers manifest).
Proof.
  unfold GetLayersDigests, getLayersDigestsFromManifestStream,
    mbind, lift, mret, of_lib, obind.
  intros H. repeat (case_match; simplify_eq/=).
  all: eexists _, _, _; split; [eassumption|]; split; [eassumption|reflexivity].
Qed.

(** C8: when the resolution of an image succeeds, its digests are those of
    the layers of the manifest it resolved to; with no layer the index
    [len(digests)-1] is -1 and LastLayer panics, before any layer is pulled;
    and LastLayer panics in that case only. *)
Theorem LastLayer_panics_without_layers W image tr repo digests options tr' :
  GetLayersDigests W image tr = (Ok (repo, digests, options), tr') ->
  (exists tr1 manifestStream manifest,
     getManifestStreamFromImage W image repo options tr1 = (Ok manifestStream, tr') /\
     unmarshal_Manifest W manifestStream = inr manifest /\
     (Layers manifest = [] <-> digests = [])) /\
  (digests = [] ->
   LastLayer W image tr = (Panic (PanicIndexOutOfRange (-1) 0), tr')) /\
  ((exists p, fst (LastLayer W image tr) = Panic p) <-> digests = []).
Proof.
  intros H. split; [|split].
  - destruct (GetLayersDigests_Ok_inv _ _ _ _ _ _ _ H)
      as (tr1 & stream & manifest & Hfetch & Hdecode & ->).
    exists tr1, stream, manifest. repeat split; [done..| |].
    + by intros ->.
    + by destruct (Layers manifest).
  - intros ->. by rewrite (LastLayer_resolved _ _ _ _ _ _ _ H).
  - split.
    + intros [p Hp]. destruct digests as [|d digests _] using rev_ind; [done|].
      rewrite (LastLayer_last _ _ _ _ _ _ _ _ H) in Hp. simpl in Hp.
      by destruct (crane_PullLayer W _ _).
    + intros ->. rewrite (LastLayer_resolved _ _ _ _ _ _ _ H). simpl. eauto.
Qed.

Lemma LastLayer_panics_without_layers_witness :
  LastLayer Fixture.world "reg.io/scratch:v1" []
  = (Panic (PanicIndexOutOfRange (-1) 0),
     [EvGetSecret "openshift-config" "pull-secret";
      EvManifest "reg.io/scratch:v1" [WithAuth "e@x.com" "abc"]]).
Proof.
  refine (proj1 (proj2 (LastLayer_panics_without_layers Fixture.world
                          "reg.io/scratch:v1" [] "reg.io/scratch" []
                          [WithAuth "e@x.com" "abc"] _ _)) _);
    reflexivity.
Defined.

(** ** Resolution of a reference *)

(** C6: a reference with neither "@" nor ":" is refused with the
    no-hash-or-tag error once its registry host is parsed and the
    credentials of that host are found; no registry call is made. *)
Theorem GetLayersDigests_without_separator W image registry auth tr tr' :
  has_byte image "@" = false ->
  has_byte image ":" = false ->
  registryFromImageURL W image = Ok registry ->
  getImageRegistryCredentials W registry tr = (Ok auth, tr') ->
  GetLayersDigests W image tr = (Err (ErrNoHashOrTag image), tr').
Proof.
  intros Hat Hcolon Hreg Hcred. unfold GetLayersDigests, mbind, lift.
  rewrite Hreg, Hcred. by rewrite !strings_Split_none.
Qed.

Lemma GetLayersDigests_without_separator_witness :
  GetLayersDigests Fixture.world "reg.io/dtk" []
  = (Err (ErrNoHashOrTag "reg.io/dtk"),
     [EvGetSecret "openshift-config" "pull-secret"]).
Proof.
  apply (GetLayersDigests_without_separator Fixture.world "reg.io/dtk"
           "reg.io" {| Auth := "abc"; Email := "e@x.com" |});
    reflexivity.
Defined.

Lemma registryFromImageURL_error W image e :
  registryFromImageURL W image = Err e -> e = ErrParseImageURL image.
Proof.
  unfold registryFromImageURL. repeat case_match; congruence.
Qed.

Lemma registryFromImageURL_no_panic W image p :
  registryFromImageURL W image <> Panic p.
Proof.
  unfold registryFromImageURL. repeat case_match; congruence.
Qed.

Lemma getImageRegistryCredentials_error W registry tr e tr' :
  getImageRegistryCredentials W registry tr = (Err e, tr') ->
  forall img, e <> ErrNoHashOrTag img.
Proof.
  unfold getImageRegistryCredentials, mbind, call, lift, mret.
  intros H img ->. repeat (case_match; simplify_eq/=).
Qed.

Lemma GetLayersDigests_split_colon W host rest registry auth tr tr' :
  host <> "" ->
  has_byte host ":" = false ->
  has_byte (host ++ ":" ++ rest) "@" = false ->
  registryFromImageURL W (host ++ ":" ++ rest) = Ok registry ->
  getImageRegistryCredentials W registry tr = (Ok auth, tr') ->
  GetLayersDigests W (host ++ ":" ++ rest) tr
  = (manifest <- getManifestStreamFromImage W (host ++ ":" ++ rest) host
                   (if negb (String.eqb (Auth auth) "")
                    then [WithAuth (Email auth) (Auth auth)] else []) ;;
     digests <- lift (getLayersDigestsFromManifestStream W manifest) ;;
     mret (host, digests,
           if negb (String.eqb (Auth auth) "")
           then [WithAuth (Email auth) (Auth auth)] else [])) tr'.
Proof.
  intros Hhost Hcolon Hat Hreg Hcred.
  assert (String.eqb host "" = false) as Hne by by apply String.eqb_neq.
  unfold GetLayersDigests at 1. unfold mbind at 1 2, lift at 1.
  rewrite Hreg, Hcred. rewrite strings_Split_none by done.
  change (":" ++ rest) with (String ":" rest).
  rewrite strings_Split_first by done.
  pose proof (strings_Split_length rest ":") as Hlen.
  destruct (strings_Split rest ":"); simpl in *; [lia|].
  by rewrite Hne.
Qed.

(** C10: a reference host:rest with no "@", where the host part is not
    empty and has no ":", is split at that first ":".  Its resolution never
    fails with the no-hash-or-tag error; whenever it succeeds the repository
    name it returns is the host part; and once the registry is parsed and
    its credentials found, it goes on with the host part as repository
    name, fetching the manifest with it. *)
Theorem GetLayersDigests_port_as_tag W host rest tr :
  host <> "" ->
  has_byte host ":" = false ->
  has_byte (host ++ ":" ++ rest) "@" = false ->
  (forall img tr',
     GetLayersDigests W (host ++ ":" ++ rest) tr <> (Err (ErrNoHashOrTag img), tr')) /\
  (forall repo digests options tr',
     GetLayersDigests W (host ++ ":" ++ rest) tr = (Ok (repo, digests, options), tr') ->
     repo = host) /\
  (forall registry auth tr',
     registryFromImageURL W (host ++ ":" ++ rest) = Ok registry ->
     getImageRegistryCredentials W registry tr = (Ok auth, tr') ->
     GetLayersDigests W (host ++ ":" ++ rest) tr
     = (manifest <- getManifestStreamFromImage W (host ++ ":" ++ rest) host
                      (if negb (String.eqb (Auth auth) "")
                       then [WithAuth (Email auth) (Auth auth)] else []) ;;
        digests <- lift (getLayersDigestsFromManifestStream W manifest) ;;
        mret (host, digests,
              if negb (String.eqb (Auth auth) "")
              then [WithAuth (Email auth) (Auth auth)] else [])) tr').
Proof.
  intros Hhost Hcolon Hat.
  split; [|split];
    [| |by intros; apply (GetLayersDigests_split_colon _ _ _ registry)].
  - intros img tr'.
    destruct (registryFromImageURL W (host ++ ":" ++ rest))
      as [registry|e|p] eqn:Hreg.
    + destruct (getImageRegistryCredentials W registry tr)
        as [[auth|e|p] tr1] eqn:Hcred.
      * rewrite (GetLayersDigests_split_colon _ _ _ _ _ _ _
                   Hhost Hcolon Hat Hreg Hcred).
        unfold mbind, lift, mret, getLayersDigestsFromManifestStream,
          of_lib, obind.
        destruct (getManifestStreamFromImage W _ host _ tr1)
          as [[m|e|p] tr2] eqn:E.
        -- by destruct (unmarshal_Manifest W m).
        -- intros [= -> ->]. by eapply getManifestStreamFromImage_error.
        -- done.
      * unfold GetLayersDigests, mbind, lift. rewrite Hreg, Hcred.
        intros [= -> ->]. by eapply getImageRegistryCredentials_error.
      * unfold GetLayersDigests, mbind, lift. by rewrite Hreg, Hcred.
    + apply registryFromImageURL_error in Hreg as Hform.
      unfold GetLayersDigests, mbind, lift. rewrite Hreg. congruence.
    + by destruct (registryFromImageURL_no_panic _ _ _ Hreg).
  - intros repo digests options tr'.
    destruct (registryFromImageURL W (host ++ ":" ++ rest))
      as [registry|e|p] eqn:Hreg.
    + destruct (getImageRegistryCredentials W registry tr)
        as [[auth|e|p] tr1] eqn:Hcred.
      * rewrite (GetLayersDigests_split_colon _ _ _ _ _ _ _
                   Hhost Hcolon Hat Hreg Hcred).
        unfold mbind, lift, mret, getLayersDigestsFromManifestStream,
          of_lib, obind.
        repeat case_match; congruence.
      * unfold GetLayersDigests, mbind, lift. by rewrite Hreg, Hcred.
      * unfold GetLayersDigests, mbind, lift. by rewrite Hreg, Hcred.
    + unfold GetLayersDigests, mbind, lift. by rewrite Hreg.
    + unfold GetLayersDigests, mbind, lift. by rewrite Hreg.
Qed.

Lemma GetLayersDigests_port_as_tag_witness :
  GetLayersDigests Fixture.world "localhost:5000/repo" []
  = (Err (ErrLib "MANIFEST_UNKNOWN"),
     [EvGetSecret "openshift-config" "pull-secret";
      EvManifest "localhost:5000/repo" []]).
Proof.
  refine (eq_trans
            (proj2 (proj2 (GetLayersDigests_port_as_tag Fixture.world
                             "localhost" "5000/repo" [] _ _ _))
               "localhost:5000" {| Auth := ""; Email := "" |}
               [EvGetSecret "openshift-config" "pull-secret"] _ _) _);
    (reflexivity || discriminate).
Defined.

(** ** Credentials and the options of the registry calls *)

Lemma manifest_calls_anonymous evs :
  Forall (fun ev => exists ref, ev = EvManifest ref []) evs -> anonymous_calls evs.
Proof.
  intros H. eapply Forall_impl; [exact H|]. by intros ev [ref ->].
Qed.

Lemma GetLayersDigests_anonymous W image registry auth tr tr1 :
  registryFromImageURL W image = Ok registry ->
  getImageRegistryCredentials W registry tr = (Ok auth, tr1) ->
  Auth auth = "" ->
  exists evs,
    snd (GetLayersDigests W image tr) = (tr1 ++ evs)%list /\
    anonymous_calls evs /\
    forall repo digests options,
      fst (GetLayersDigests W image tr) = Ok (repo, digests, options) ->
      options = [].
Proof.
  intros Hreg Hcred Hempty.
  unfold GetLayersDigests, mbind, lift, mret. rewrite Hreg, Hcred, Hempty.
  simpl.
  match goal with
  | |- context [String.eqb ?r ""] => generalize r
  end.
  intros repo. destruct (String.eqb repo "").
  { exists []. rewrite app_nil_r. repeat split; [constructor|done]. }
  destruct (getManifestStreamFromImage_calls W image repo [] tr1)
    as (evs & Hevs & Hcalls).
  exists evs.
  destruct (getManifestStreamFromImage W image repo [] _) as [[m|e|p] tr2];
    simpl in *; subst tr2.
  - destruct (getLayersDigestsFromManifestStream W m); simpl;
      (repeat split; [by apply manifest_calls_anonymous|]);
      intros ? ? ? ?; congruence.
  - repeat split; [by apply manifest_calls_anonymous|done].
  - repeat split; [by apply manifest_calls_anonymous|done].
Qed.

Lemma LastLayer_anonymous W image registry auth tr tr1 :
  registryFromImageURL W image = Ok registry ->
  getImageRegistryCredentials W registry tr = (Ok auth, tr1) ->
  Auth auth = "" ->
  exists evs,
    snd (LastLayer W image tr) = (tr1 ++ evs)%list /\ anonymous_calls evs.
Proof.
  intros Hreg Hcred Hempty.
  destruct (GetLayersDigests_anonymous _ _ _ _ _ _ Hreg Hcred Hempty)
    as (evs & Htrace & Hcalls & Hoptions).
  destruct (GetLayersDigests W image tr)
    as [[[[repo digests] options]|e|p] tr2] eqn:E; simpl in *; subst tr2.
  - rewrite (Hoptions _ _ _ eq_refl) in E.
    rewrite (LastLayer_resolved _ _ _ _ _ _ _ E).
    destruct (index digests _) as [digest| |]; simpl; [|by exists evs..].
    exists (evs ++ [EvPullLayer (repo ++ "@" ++ digest) []])%list.
    split; [by rewrite (assoc_L (++)%list)|].
    apply Forall_app. split; [done|]. by constructor.
  - exists evs. unfold LastLayer, mbind. by rewrite E.
  - exists evs. unfold LastLayer, mbind. by rewrite E.
Qed.

(** C5: over a pull secret that decodes, the credentials of a host are its
    entry of the document when there is one, and the no-auth error of that
    host when there is none.  Without entry the resolution of an image of
    that host stops on that error before any registry call.  With an entry
    whose Auth is empty, every registry call of the resolution and of
    LastLayer carries no option, and the options the resolution returns for
    the pull of a layer are empty. *)
Theorem credentials_by_host W secret doc auths registry tr :
  GetSecret W pullSecretNamespace pullSecretName = inr secret ->
  Data secret !! pullSecretFileName = Some doc ->
  unmarshal_auths W doc = inr auths ->
  getImageRegistryCredentials W registry tr
  = (match auths !! registry with
     | Some auth => Ok auth
     | None => Err (ErrNoAuthForRegistry registry)
     end,
     (tr ++ [EvGetSecret pullSecretNamespace pullSecretName])%list) /\
  forall image,
    registryFromImageURL W image = Ok registry ->
    (auths !! registry = None ->
     GetLayersDigests W image tr
     = (Err (ErrNoAuthForRegistry registry),
        (tr ++ [EvGetSecret pullSecretNamespace pullSecretName])%list)) /\
    (forall auth,
       auths !! registry = Some auth ->
       Auth auth = "" ->
       (exists evs,
          snd (GetLayersDigests W image tr)
          = ((tr ++ [EvGetSecret pullSecretNamespace pullSecretName]) ++ evs)%list /\
          anonymous_calls evs /\
          forall repo digests options,
            fst (GetLayersDigests W image tr) = Ok (repo, digests, options) ->
            options = []) /\
       (exists evs,
          snd (LastLayer W image tr)
          = ((tr ++ [EvGetSecret pullSecretNamespace pullSecretName]) ++ evs)%list /\
          anonymous_calls evs)).
Proof.
  intros Hsecret Hdata Hauths.
  pose proof (getImageRegistryCredentials_lookup W secret doc auths
                Hsecret Hdata Hauths registry tr) as Hcred.
  split; [exact Hcred|]. intros image Hreg. split.
  - intros Hnone. rewrite Hnone in Hcred.
    unfold GetLayersDigests, mbind, lift. by rewrite Hreg, Hcred.
  - intros auth Hsome Hempty. rewrite Hsome in Hcred. split.
    + by apply (GetLayersDigests_anonymous _ _ registry auth).
    + by apply (LastLayer_anonymous _ _ registry auth).
Qed.

Lemma credentials_by_host_witness :
  getImageRegistryCredentials Fixture.world "reg.io" []
  = (Ok {| Auth := "abc"; Email := "e@x.com" |},
     [EvGetSecret "openshift-config" "pull-secret"]) /\
  GetLayersDigests Fixture.world "other.io/repo:v1" []
  = (Err (ErrNoAuthForRegistry "other.io"),
     [EvGetSecret "openshift-config" "pull-secret"]).
Proof.
  split.
  - refine (proj1 (credentials_by_host Fixture.world
                     {| Data := {[".dockerconfigjson" := "pull-secret.json"]} |}
                     "pull-secret.json" Fixture.auths "reg.io" [] _ _ _));
      reflexivity.
  - refine (proj1 (proj2 (credentials_by_host Fixture.world
                            {| Data := {[".dockerconfigjson" := "pull-secret.json"]} |}
                            "pull-secret.json" Fixture.auths "other.io" [] _ _ _)
                     "other.io/repo:v1" _) _);
      reflexivity.
Defined.

(** * Further properties of the package *)

(** ** The registry host of a reference *)

(** X1: the registry host is never empty and the function never panics: the
    result is the non-empty host of the reference as parsed, or else of the
    reference parsed behind "//", and otherwise the parse error of the
    reference, which means that neither parse gave a host. *)
Theorem registryFromImageURL_host_or_error W image :
  (exists u,
     registryFromImageURL W image = Ok (Host u) /\ Host u <> "" /\
     (url_Parse W image = inr u \/
      (no_host (url_Parse W image) = true /\
       url_Parse W ("//" ++ image) = inr u))) \/
  (registryFromImageURL W image = Err (ErrParseImageURL image) /\
   no_host (url_Parse W image) = true /\
   no_host (url_Parse W ("//" ++ image)) = true).
Proof.
  unfold registryFromImageURL.
  destruct (url_Parse W image) as [e|u] eqn:E1; simpl.
  - destruct (url_Parse W ("//" ++ image)) as [e'|u'] eqn:E2; simpl; [by right|].
    destruct (String.eqb_spec (Host u') ""); [by right|].
    left. exists u'. auto.
  - destruct (String.eqb_spec (Host u) "") as [Hu|Hu].
    + destruct (url_Parse W ("//" ++ image)) as [e'|u'] eqn:E2; simpl; [by right|].
      destruct (String.eqb_spec (Host u') ""); [by right|].
      left. exists u'. auto.
    + left. exists u. rewrite (proj2 (String.eqb_neq _ _) Hu). auto.
Qed.

(** X2: a reference that gives no host either way is refused before the
    cluster or the registry is called: the resolution and LastLayer return
    the parse error and record no call. *)
Theorem unparsable_reference_makes_no_call W image tr :
  no_host (url_Parse W image) = true ->
  no_host (url_Parse W ("//" ++ image)) = true ->
  GetLayersDigests W image tr = (Err (ErrParseImageURL image), tr) /\
  LastLayer W image tr = (Err (ErrParseImageURL image), tr).
Proof.
  intros H1 H2.
  assert (registryFromImageURL W image = Err (ErrParseImageURL image)) as Hreg.
  { unfold registryFromImageURL. rewrite H1.
    destruct (url_Parse W ("//" ++ image)) as [e|u]; [done|].
    simpl in H2. by rewrite H2. }
  assert (GetLayersDigests W image tr = (Err (ErrParseImageURL image), tr)) as HG.
  { unfold GetLayersDigests, mbind, lift. by rewrite Hreg. }
  split; [done|]. unfold LastLayer, mbind. by rewrite HG.
Qed.

Lemma unparsable_reference_makes_no_call_witness :
  LastLayer Fixture.world "/dtk:v1" [] = (Err (ErrParseImageURL "/dtk:v1"), []).
Proof.
  apply (unparsable_reference_makes_no_call Fixture.world "/dtk:v1" []);
    reflexivity.
Defined.

(** ** Reading the pull secret *)

(** X3: the credential lookup reads the secret pull-secret of namespace
    openshift-config once, whatever the outcome, and never panics. *)
Theorem getImageRegistryCredentials_one_call W registry tr :
  snd (getImageRegistryCredentials W registry tr)
  = (tr ++ [EvGetSecret "openshift-config" "pull-secret"])%list /\
  forall p, fst (getImageRegistryCredentials W registry tr) <> Panic p.
Proof.
  unfold getImageRegistryCredentials, mbind, call, lift, mret.
  repeat case_match; simplify_eq/=; done.
Qed.

(** X4: credentials that are returned are the entry of the registry in the
    decoded .dockerconfigjson document of the secret. *)
Theorem getImageRegistryCredentials_sound W registry tr auth tr' :
  getImageRegistryCredentials W registry tr = (Ok auth, tr') ->
  exists secret doc auths,
    GetSecret W "openshift-config" "pull-secret" = inr secret /\
    Data secret !! ".dockerconfigjson" = Some doc /\
    unmarshal_auths W doc = inr auths /\
    auths !! registry = Some auth.
Proof.
  unfold getImageRegistryCredentials, mbind, call, lift, mret.
  intros H. repeat (case_match; simplify_eq/=).
  eexists _, _, _. eauto.
Qed.

Lemma getImageRegistryCredentials_sound_witness :
  exists secret doc auths,
    GetSecret Fixture.world "openshift-config" "pull-secret" = inr secret /\
    Data secret !! ".dockerconfigjson" = Some doc /\
    unmarshal_auths Fixture.world doc = inr auths /\
    auths !! "localhost:5000" = Some {| Auth := ""; Email := "" |}.
Proof.
  apply (getImageRegistryCredentials_sound Fixture.world "localhost:5000" []
           {| Auth := ""; Email := "" |}
           [EvGetSecret "openshift-config" "pull-secret"]).
  reflexivity.
Defined.

(** X5: for a reference whose registry is parsed, a secret that cannot be
    read, that has no .dockerconfigjson entry, or whose entry does not
    decode ends the resolution with the error of that cause, after the one
    read of the secret and before any registry call; the text of the
    decoding error is not kept. *)
Theorem credential_failure_ends_resolution W image registry tr :
  registryFromImageURL W image = Ok registry ->
  (forall cause,
     GetSecret W "openshift-config" "pull-secret" = inl cause ->
     GetLayersDigests W image tr
     = (Err (ErrRetrieveSecret cause),
        (tr ++ [EvGetSecret "openshift-config" "pull-secret"])%list)) /\
  (forall secret,
     GetSecret W "openshift-config" "pull-secret" = inr secret ->
     Data secret !! ".dockerconfigjson" = None ->
     GetLayersDigests W image tr
     = (Err ErrNoSecretData,
        (tr ++ [EvGetSecret "openshift-config" "pull-secret"])%list)) /\
  (forall secret doc cause,
     GetSecret W "openshift-config" "pull-secret" = inr secret ->
     Data secret !! ".dockerconfigjson" = Some doc ->
     unmarshal_auths W doc = inl cause ->
     GetLayersDigests W image tr
     = (Err ErrUnmarshalAuths,
        (tr ++ [EvGetSecret "openshift-config" "pull-secret"])%list)).
Proof.
  intros Hreg.
  unfold GetLayersDigests, getImageRegistryCredentials, mbind, call, lift, mret,
    pullSecretNamespace, pullSecretName, pullSecretFileName.
  rewrite Hreg. split; [|split].
  - by intros cause ->.
  - by intros secret -> ->.
  - by intros secret doc cause -> -> ->.
Qed.

Lemma credential_failure_ends_resolution_witness :
  GetLayersDigests Faults.unreachable "reg.io/dtk:v1" []
  = (Err (ErrRetrieveSecret "connection refused"),
     [EvGetSecret "openshift-config" "pull-secret"]) /\
  GetLayersDigests Faults.bare "reg.io/dtk:v1" []
  = (Err ErrNoSecretData, [EvGetSecret "openshift-config" "pull-secret"]) /\
  GetLayersDigests Faults.garbled "reg.io/dtk:v1" []
  = (Err ErrUnmarshalAuths, [EvGetSecret "openshift-config" "pull-secret"]).
Proof.
  split; [|split].
  - refine (proj1 (credential_failure_ends_resolution Faults.unreachable
                     "reg.io/dtk:v1" "reg.io" [] _) "connection refused" _);
      reflexivity.
  - refine (proj1 (proj2 (credential_failure_ends_resolution Faults.bare
                            "reg.io/dtk:v1" "reg.io" [] _))
              {| Data := ∅ |} _ _);
      reflexivity.
  - refine (proj2 (proj2 (credential_failure_ends_resolution Faults.garbled
                            "reg.io/dtk:v1" "reg.io" [] _))
              {| Data := {[".dockerconfigjson" := "truncated.json"]} |}
              "truncated.json" "unexpected end of JSON input" _ _ _);
      reflexivity.
Defined.

(** ** Reading a file out of a layer *)

(** X6: when the tar reader fails before any entry of the name looked for,
    the scan ends with that error of the reader, not with the
    header-not-found error, and reads nothing after the failure, even when
    an entry of that name follows. *)
Theorem tar_failure_surfaces W headerName before e after :
  Forall (fun en => fst en <> headerName) before ->
  scanHeaders W headerName (headers before ++ TarFail e :: after)
  = (Err (ErrLib e), after) /\
  getHeaderFromLayer W (TarGz (headers before ++ TarFail e :: after)) headerName
  = Err (ErrLib e).
Proof.
  intros Hne.
  assert (scanHeaders W headerName (headers before ++ TarFail e :: after)
          = (Err (ErrLib e), after)) as H
    by by rewrite scanHeaders_skip.
  split; [exact H|]. simpl. by rewrite H.
Qed.

Lemma tar_failure_surfaces_witness :
  getHeaderFromLayer Fixture.world
    (Faults.broken "etc/driver-toolkit-release.json" "release.json")
    "etc/driver-toolkit-release.json"
  = Err (ErrLib "unexpected EOF").
Proof.
  refine (proj2 (tar_failure_surfaces Fixture.world
                   "etc/driver-toolkit-release.json"
                   [("a/b.json", inr "empty-object.json")] "unexpected EOF"
                   [TarHeader "etc/driver-toolkit-release.json" (inr "release.json")]
                   _)).
  repeat constructor. simpl. discriminate.
Defined.

Lemma scanHeaders_Ok_inv W headerName tr obj :
  fst (scanHeaders W headerName tr) = Ok obj ->
  exists before buff after,
    tr = (headers before ++ TarHeader headerName (inr buff) :: after)%list /\
    Forall (fun en => fst en <> headerName) before /\
    unmarshal_object W buff = inr obj.
Proof.
  induction tr as [|[name content|e] tr IH]; simpl; [done| |done].
  destruct (String.eqb_spec name headerName) as [->|Hne]; simpl.
  - destruct content as [e|buff]; simpl; [done|].
    destruct (unmarshal_object W buff) as [e|obj'] eqn:E; simpl; [done|].
    intros [= <-]. by exists [], buff, tr.
  - intros (before & buff & after & -> & Hbefore & Hdecode)%IH.
    exists ((name, content) :: before), buff, after.
    repeat split; [|done]. by constructor.
Qed.

(** X7: an object returned for a file name is the decoding of the content
    of an entry of the archive with exactly that name, the first one, and
    every entry before it was read without failure. *)
Theorem getHeaderFromLayer_sound W layer headerName obj :
  getHeaderFromLayer W layer headerName = Ok obj ->
  exists before buff after,
    layer = TarGz (headers before ++ TarHeader headerName (inr buff) :: after) /\
    Forall (fun en => fst en <> headerName) before /\
    unmarshal_object W buff = inr obj.
Proof.
  destruct layer as [e|e|entries]; simpl; [done..|].
  intros (before & buff & after & -> & H)%scanHeaders_Ok_inv.
  by exists before, buff, after.
Qed.

Lemma getHeaderFromLayer_sound_witness :
  exists before buff after,
    Fixture.archive "etc/driver-toolkit-release.json" "release.json"
    = TarGz (headers before
             ++ TarHeader "etc/driver-toolkit-release.json" (inr buff) :: after) /\
    Forall (fun en => fst en <> "etc/driver-toolkit-release.json") before /\
    unmarshal_object Fixture.world buff = inr Fixture.release.
Proof.
  apply (getHeaderFromLayer_sound Fixture.world). reflexivity.
Defined.

Lemma scanHeaders_no_panic W headerName tr p :
  fst (scanHeaders W headerName tr) <> Panic p.
Proof.
  induction tr as [|[name content|e] tr IH]; simpl; [done| |done].
  destruct (String.eqb name headerName); [|done]. simpl.
  destruct content as [e|buff]; simpl; [done|].
  by destruct (unmarshal_object W buff).
Qed.

Lemma getHeaderFromLayer_no_panic W layer headerName p :
  getHeaderFromLayer W layer headerName <> Panic p.
Proof.
  destruct layer; simpl; [done..|]. apply scanHeaders_no_panic.
Qed.

(** X8: reading the driver-toolkit release of a layer never panics,
    whatever the layer holds: the scan of the archive does not, and the
    three fields are read with accessors that check the type. *)
Theorem ExtractToolkitRelease_no_panic W layer p :
  ExtractToolkitRelease W layer <> Panic p.
Proof.
  unfold ExtractToolkitRelease.
  pose proof (getHeaderFromLayer_no_panic W layer
                "etc/driver-toolkit-release.json") as Hscan.
  destruct (getHeaderFromLayer W layer _) as [obj|e|p']; simpl;
    [|done|by destruct (Hscan p')].
  repeat case_match; done.
Qed.

(** X9: an error of the extraction of the file is returned unchanged by
    each of the three projections, each for the path it reads. *)
Theorem projections_return_extraction_error W layer :
  (forall e,
     getHeaderFromLayer W layer "etc/driver-toolkit-release.json" = Err e ->
     ExtractToolkitRelease W layer = Err e) /\
  (forall e,
     getHeaderFromLayer W layer "release-manifests/image-references" = Err e ->
     ReleaseManifests W layer = Err e /\
     ReleaseImageMachineOSConfig W layer = Err e).
Proof.
  unfold ExtractToolkitRelease, ReleaseManifests, ReleaseImageMachineOSConfig.
  split; intros e ->; done.
Qed.

Lemma projections_return_extraction_error_witness :
  ExtractToolkitRelease Fixture.world (NotGzip "gzip: invalid header")
  = Err (ErrLib "gzip: invalid header") /\
  ReleaseManifests Fixture.world
    (Fixture.archive "etc/driver-toolkit-release.json" "release.json")
  = Err (ErrHeaderNotFound "release-manifests/image-references").
Proof.
  split.
  - by apply (proj1 (projections_return_extraction_error Fixture.world
                       (NotGzip "gzip: invalid header"))).
  - by apply (proj2 (projections_return_extraction_error Fixture.world
                       (Fixture.archive "etc/driver-toolkit-release.json"
                          "release.json"))).
Defined.

(** ** The driver-toolkit release file, further *)

(** X10: an entry is returned exactly when the release file is found,
    decodes, and holds KERNEL_VERSION, RT_KERNEL_VERSION and RHEL_VERSION as
    strings; the entry then carries these three strings and an empty image
    URL. *)
Theorem ExtractToolkitRelease_Ok_iff W layer dtk :
  ExtractToolkitRelease W layer = Ok dtk <->
  ImageURL dtk = "" /\
  exists obj,
    getHeaderFromLayer W layer "etc/driver-toolkit-release.json" = Ok obj /\
    obj !! "KERNEL_VERSION" = Some (JString (KernelFullVersion dtk)) /\
    obj !! "RT_KERNEL_VERSION" = Some (JString (RTKernelFullVersion dtk)) /\
    obj !! "RHEL_VERSION" = Some (JString (OSVersion dtk)).
Proof.
  split.
  - intros (obj & Hobj & Hk & Hrt & Hos & Hurl)%ExtractToolkitRelease_Ok_inv.
    split; [done|]. by exists obj.
  - intros (Hurl & obj & Hobj & Hk & Hrt & Hos).
    unfold ExtractToolkitRelease. rewrite Hobj. simpl.
    rewrite (NestedString_string _ _ _ Hk). simpl.
    rewrite (NestedString_string _ _ _ Hrt). simpl.
    rewrite (NestedString_string _ _ _ Hos). simpl.
    destruct dtk; simpl in *. by subst.
Qed.

Lemma NestedString_absent obj field :
  obj !! field = None -> NestedString obj [field] = ("", false, None).
Proof.
  intros H. unfold NestedString, NestedFieldNoCopy. simpl. by rewrite H.
Qed.

Lemma NestedString_mistyped obj field v :
  obj !! field = Some v ->
  (forall s, v <> JString s) ->
  NestedString obj [field]
  = ("", false, Some (AccessorError [field] v "string")).
Proof.
  intros H Hv. unfold NestedString, NestedFieldNoCopy. simpl. rewrite H.
  destruct v; try done. by destruct (Hv s).
Qed.

(** X11: the missing-field error tells the two ways a field can be missing
    apart.  For the first of the three fields that is not a string of the
    release file: when the key is absent the error reports not found and no
    cause; when the key holds a value of another type, null included, it
    reports the accessor error with the field and the value, expecting a
    string. *)
Theorem ExtractToolkitRelease_absent_or_mistyped W layer obj :
  getHeaderFromLayer W layer "etc/driver-toolkit-release.json" = Ok obj ->
  (obj !! "KERNEL_VERSION" = None ->
   ExtractToolkitRelease W layer = Err (ErrGetField "KERNEL_VERSION" None false)) /\
  (forall v,
     obj !! "KERNEL_VERSION" = Some v -> (forall s, v <> JString s) ->
     ExtractToolkitRelease W layer
     = Err (ErrGetField "KERNEL_VERSION"
              (Some (AccessorError ["KERNEL_VERSION"] v "string")) false)) /\
  (has_string_field obj "KERNEL_VERSION" ->
   (obj !! "RT_KERNEL_VERSION" = None ->
    ExtractToolkitRelease W layer
    = Err (ErrGetField "RT_KERNEL_VERSION" None false)) /\
   (forall v,
      obj !! "RT_KERNEL_VERSION" = Some v -> (forall s, v <> JString s) ->
      ExtractToolkitRelease W layer
      = Err (ErrGetField "RT_KERNEL_VERSION"
               (Some (AccessorError ["RT_KERNEL_VERSION"] v "string")) false))) /\
  (has_string_field obj "KERNEL_VERSION" ->
   has_string_field obj "RT_KERNEL_VERSION" ->
   (obj !! "RHEL_VERSION" = None ->
    ExtractToolkitRelease W layer = Err (ErrGetField "RHEL_VERSION" None false)) /\
   (forall v,
      obj !! "RHEL_VERSION" = Some v -> (forall s, v <> JString s) ->
      ExtractToolkitRelease W layer
      = Err (ErrGetField "RHEL_VERSION"
               (Some (AccessorError ["RHEL_VERSION"] v "string")) false))).
Proof.
  intros Hobj. unfold ExtractToolkitRelease. rewrite Hobj. simpl.
  split; [|split; [|split]].
  - intros H. by rewrite (NestedString_absent _ _ H).
  - intros v H Hv. by rewrite (NestedString_mistyped _ _ _ H Hv).
  - intros [k Hk]. rewrite (NestedString_string _ _ _ Hk). simpl. split.
    + intros H. by rewrite (NestedString_absent _ _ H).
    + intros v H Hv. by rewrite (NestedString_mistyped _ _ _ H Hv).
  - intros [k Hk] [rt Hrt]. rewrite (NestedString_string _ _ _ Hk). simpl.
    rewrite (NestedString_string _ _ _ Hrt). simpl. split.
    + intros H. by rewrite (NestedString_absent _ _ H).
    + intros v H Hv. by rewrite (NestedString_mistyped _ _ _ H Hv).
Qed.

Lemma ExtractToolkitRelease_absent_or_mistyped_witness :
  ExtractToolkitRelease Faults.world
    (Fixture.archive "etc/driver-toolkit-release.json" "release-number.json")
  = Err (ErrGetField "KERNEL_VERSION"
           (Some (AccessorError ["KERNEL_VERSION"] (JNumber 0) "string")) false).
Proof.
  refine (proj1 (proj2 (ExtractToolkitRelease_absent_or_mistyped Faults.world
                          (Fixture.archive "etc/driver-toolkit-release.json"
                             "release-number.json")
                          (<["KERNEL_VERSION" := JNumber 0]> Fixture.release) _))
            (JNumber 0) _ _);
    (reflexivity || discriminate).
Defined.

(** ** The image-references file, further *)

Lemma iface_eq_string_named v s :
  iface_eq_string v s = true -> v = Some (JString s).
Proof.
  destruct v as [[]|]; simpl; try done.
  by intros ->%String.eqb_eq.
Qed.

Lemma iface_eq_string_same s : iface_eq_string (Some (JString s)) s = true.
Proof. simpl. apply String.eqb_refl. Qed.

(** X12: the driver-toolkit scan is decided by the first tag named
    driver-toolkit, whatever follows it: its [from.name] when that is a
    string; the missing-from error when the tag has no [from]; the
    missing-name error when [from] is an object without a string [name];
    and a panic when [from] is not an object, as that assertion is
    unchecked. *)
Theorem ReleaseManifests_first_named_tag W layer obj spec before m after :
  getHeaderFromLayer W layer "release-manifests/image-references" = Ok obj ->
  obj !! "spec" = Some (JObject spec) ->
  spec !! "tags" = Some (JArray (before ++ JObject m :: after)) ->
  Forall (other_tag "driver-toolkit") before ->
  m !! "name" = Some (JString "driver-toolkit") ->
  (forall from url,
     m !! "from" = Some (JObject from) ->
     from !! "name" = Some (JString url) ->
     ReleaseManifests W layer = Ok url) /\
  (m !! "from" = None -> ReleaseManifests W layer = Err ErrMissingFrom) /\
  (forall from,
     m !! "from" = Some (JObject from) ->
     (forall url, from !! "name" <> Some (JString url)) ->
     ReleaseManifests W layer = Err ErrMissingName) /\
  (forall v,
     m !! "from" = Some v ->
     (forall from, v <> JObject from) ->
     ReleaseManifests W layer
     = Panic (PanicInterfaceConversion v "map[string]interface {}")).
Proof.
  intros Hobj Hspec Htags Hbefore Hname.
  unfold ReleaseManifests. rewrite Hobj. simpl.
  rewrite (NestedSlice_tags _ _ _ Hspec Htags). simpl.
  rewrite scanDriverToolkit_skip by done. simpl.
  rewrite Hname, iface_eq_string_same.
  split; [|split; [|split]].
  - intros from url Hfrom Hurl. rewrite Hfrom. simpl. by rewrite Hurl.
  - by intros ->.
  - intros from -> Hfrom. simpl.
    destruct (from !! "name") as [[]|] eqn:E; try done. by destruct (Hfrom s).
  - intros v -> Hv. by rewrite assert_map_not_object.
Qed.

Lemma ReleaseManifests_first_named_tag_witness :
  ReleaseManifests Faults.world
    (Fixture.archive "release-manifests/image-references" "references-found.json")
  = Ok "reg.io/dtk:v1" /\
  ReleaseManifests Faults.world
    (Fixture.archive "release-manifests/image-references"
       "references-from-string.json")
  = Panic (PanicInterfaceConversion (JString "reg.io/dtk:v1")
             "map[string]interface {}").
Proof.
  split.
  - refine (proj1 (ReleaseManifests_first_named_tag Faults.world
                     (Fixture.archive "release-manifests/image-references"
                        "references-found.json")
                     (Fixture.references
                        [Faults.other; Fixture.dtk_tag; Fixture.mos_tag;
                         Faults.dtk_no_from])
                     {["tags" := JArray [Faults.other; Fixture.dtk_tag;
                                         Fixture.mos_tag; Faults.dtk_no_from]]}
                     [Faults.other]
                     (<["name" := JString "driver-toolkit"]>
                        {["from" := JObject {["name" := JString "reg.io/dtk:v1"]}]})
                     [Fixture.mos_tag; Faults.dtk_no_from] _ _ _ _ _)
              {["name" := JString "reg.io/dtk:v1"]} "reg.io/dtk:v1" _ _);
      try reflexivity.
    repeat constructor. eexists. split; [reflexivity|]. vm_compute. discriminate.
  - refine (proj2 (proj2 (proj2
              (ReleaseManifests_first_named_tag Faults.world
                 (Fixture.archive "release-manifests/image-references"
                    "references-from-string.json")
                 (Fixture.references [Faults.other; Faults.dtk_from_string])
                 {["tags" := JArray [Faults.other; Faults.dtk_from_string]]}
                 [Faults.other]
                 (<["name" := JString "driver-toolkit"]>
                    {["from" := JString "reg.io/dtk:v1"]})
                 [] _ _ _ _ _)))
              (JString "reg.io/dtk:v1") _ _);
      try reflexivity; try discriminate.
    repeat constructor. eexists. split; [reflexivity|]. vm_compute. discriminate.
Defined.

(** X13: the machine-os-content scan is decided by the first tag named
    machine-os-content, whatever follows it: its annotation
    io.openshift.build.versions when that is a string; the annotations error
    when the tag has no [annotations]; the versions error when
    [annotations] is an object without that string; and a panic when
    [annotations] is not an object. *)
Theorem ReleaseImageMachineOSConfig_first_named_tag W layer obj spec before m after :
  getHeaderFromLayer W layer "release-manifests/image-references" = Ok obj ->
  obj !! "spec" = Some (JObject spec) ->
  spec !! "tags" = Some (JArray (before ++ JObject m :: after)) ->
  Forall (other_tag "machine-os-content") before ->
  m !! "name" = Some (JString "machine-os-content") ->
  (forall annotations osVersion,
     m !! "annotations" = Some (JObject annotations) ->
     annotations !! "io.openshift.build.versions" = Some (JString osVersion) ->
     ReleaseImageMachineOSConfig W layer = Ok osVersion) /\
  (m !! "annotations" = None ->
   ReleaseImageMachineOSConfig W layer = Err ErrAnnotations) /\
  (forall annotations,
     m !! "annotations" = Some (JObject annotations) ->
     (forall osVersion,
        annotations !! "io.openshift.build.versions" <> Some (JString osVersion)) ->
     ReleaseImageMachineOSConfig W layer = Err ErrBuildVersions) /\
  (forall v,
     m !! "annotations" = Some v ->
     (forall annotations, v <> JObject annotations) ->
     ReleaseImageMachineOSConfig W layer
     = Panic (PanicInterfaceConversion v "map[string]interface {}")).
Proof.
  intros Hobj Hspec Htags Hbefore Hname.
  unfold ReleaseImageMachineOSConfig. rewrite Hobj. simpl.
  rewrite (NestedSlice_tags _ _ _ Hspec Htags). simpl.
  rewrite scanMachineOSContent_skip by done. simpl.
  rewrite Hname, iface_eq_string_same.
  split; [|split; [|split]].
  - intros annotations osVersion Hann Hversion. rewrite Hann. simpl.
    by rewrite Hversion.
  - by intros ->.
  - intros annotations -> Hann. simpl.
    destruct (annotations !! "io.openshift.build.versions") as [[]|] eqn:E;
      try done.
    by destruct (Hann s).
  - intros v -> Hv. by rewrite assert_map_not_object.
Qed.

Lemma ReleaseImageMachineOSConfig_first_named_tag_witness :
  ReleaseImageMachineOSConfig Faults.world
    (Fixture.archive "release-manifests/image-references" "references-no-from.json")
  = Err ErrAnnotations.
Proof.
  refine (proj1 (proj2
            (ReleaseImageMachineOSConfig_first_named_tag Faults.world
               (Fixture.archive "release-manifests/image-references"
                  "references-no-from.json")
               (Fixture.references
                  [Faults.other; Faults.dtk_no_from; Faults.mos_no_annotations])
               {["tags" := JArray [Faults.other; Faults.dtk_no_from;
                                   Faults.mos_no_annotations]]}
               [Faults.other; Faults.dtk_no_from]
               {["name" := JString "machine-os-content"]}
               [] _ _ _ _ _)) _);
    try reflexivity.
  repeat constructor; (eexists; split; [reflexivity|]; vm_compute; discriminate).
Defined.

(** X14: when every element of [spec.tags] is an object and none is named
    as the tag looked for, the empty array included, each scan ends with its
    own not-found error. *)
Theorem tag_not_found W layer obj spec tags :
  getHeaderFromLayer W layer "release-manifests/image-references" = Ok obj ->
  obj !! "spec" = Some (JObject spec) ->
  spec !! "tags" = Some (JArray tags) ->
  (Forall (other_tag "driver-toolkit") tags ->
   ReleaseManifests W layer = Err ErrNoDriverToolkit) /\
  (Forall (other_tag "machine-os-content") tags ->
   ReleaseImageMachineOSConfig W layer = Err ErrNoMachineOSContent).
Proof.
  intros Hobj Hspec Htags.
  unfold ReleaseManifests, ReleaseImageMachineOSConfig. rewrite Hobj. simpl.
  rewrite (NestedSlice_tags _ _ _ Hspec Htags). simpl.
  split; intros Hall; rewrite <- (app_nil_r tags).
  - by rewrite scanDriverToolkit_skip.
  - by rewrite scanMachineOSContent_skip.
Qed.

Lemma tag_not_found_witness :
  ReleaseManifests Faults.world
    (Fixture.archive "release-manifests/image-references" "references-others.json")
  = Err ErrNoDriverToolkit.
Proof.
  refine (proj1 (tag_not_found Faults.world
                   (Fixture.archive "release-manifests/image-references"
                      "references-others.json")
                   (Fixture.references [Faults.other])
                   {["tags" := JArray [Faults.other]]} [Faults.other] _ _ _) _);
    try reflexivity.
  repeat constructor. eexists. split; [reflexivity|]. vm_compute. discriminate.
Defined.

Lemma NestedSlice_found_inv obj tags found err :
  NestedSlice obj ["spec"; "tags"] = (tags, found, err) ->
  failed found err = false ->
  exists spec,
    obj !! "spec" = Some (JObject spec) /\ spec !! "tags" = Some (JArray tags).
Proof.
  unfold NestedSlice, NestedFieldNoCopy. simpl.
  destruct (obj !! "spec") as [v|] eqn:E1; cbn;
    [|intros [= <- <- <-]; discriminate].
  destruct v as [| | | | |spec]; cbn; try (intros [= <- <- <-]; discriminate).
  destruct (spec !! "tags") as [v|] eqn:E2; cbn;
    [|intros [= <- <- <-]; discriminate].
  destruct v; cbn; intros [= <- <- <-]; try discriminate.
  intros _. by exists spec.
Qed.

(** X15: when the file has no [spec.tags] array (no [spec], a [spec] that
    is not an object, no [tags], or [tags] that is not an array), both
    projections fail with their spec/tags error and inspect no tag. *)
Theorem tags_array_missing W layer obj :
  getHeaderFromLayer W layer "release-manifests/image-references" = Ok obj ->
  ~ (exists spec tags,
       obj !! "spec" = Some (JObject spec) /\ spec !! "tags" = Some (JArray tags)) ->
  exists cause found,
    ReleaseManifests W layer = Err (ErrSpecTag cause found) /\
    ReleaseImageMachineOSConfig W layer = Err (ErrSpecTags cause found).
Proof.
  intros Hobj Hnone.
  unfold ReleaseManifests, ReleaseImageMachineOSConfig. rewrite Hobj. simpl.
  destruct (NestedSlice obj ["spec"; "tags"]) as [[tags found] err] eqn:E.
  destruct (failed found err) eqn:F; [by exists err, found|].
  destruct Hnone. destruct (NestedSlice_found_inv _ _ _ _ E F) as (spec & ? & ?).
  by exists spec, tags.
Qed.

Lemma tags_array_missing_witness :
  exists cause found,
    ReleaseManifests Faults.world
      (Fixture.archive "release-manifests/image-references" "tags-not-array.json")
    = Err (ErrSpecTag cause found) /\
    ReleaseImageMachineOSConfig Faults.world
      (Fixture.archive "release-manifests/image-references" "tags-not-array.json")
    = Err (ErrSpecTags cause found).
Proof.
  apply (tags_array_missing Faults.world _
           {["spec" := JObject {["tags" := JString "none"]}]}).
  - reflexivity.
  - intros (spec & tags & Hspec & Htags).
    vm_compute in Hspec. injection Hspec as <-.
    vm_compute in Htags. discriminate.
Defined.

Lemma other_tag_unnamed name m :
  iface_eq_string (m !! "name") name = false -> other_tag name (JObject m).
Proof.
  intros H. exists m. split; [done|]. intros Hname.
  by rewrite Hname, iface_eq_string_same in H.
Qed.

Lemma scanDriverToolkit_Ok_inv tags url :
  scanDriverToolkit tags = Ok url ->
  exists before m from after,
    tags = (before ++ JObject m :: after)%list /\
    Forall (other_tag "driver-toolkit") before /\
    m !! "name" = Some (JString "driver-toolkit") /\
    m !! "from" = Some (JObject from) /\
    from !! "name" = Some (JString url).
Proof.
  induction tags as [|tag tags IH]; simpl; [done|].
  destruct tag as [| | | | |m]; simpl; try done.
  destruct (iface_eq_string (m !! "name") "driver-toolkit") eqn:E.
  - apply iface_eq_string_named in E.
    destruct (m !! "from") as [[| | | | |from]|] eqn:Hfrom; simpl; try done.
    destruct (from !! "name") as [[]|] eqn:Hurl; try done.
    intros [= <-]. by exists [], m, from, tags.
  - intros (before & m' & from & after & -> & Hbefore & H)%IH.
    exists (JObject m :: before), m', from, after.
    split; [done|]. split; [|done]. constructor; [|done].
    by apply other_tag_unnamed.
Qed.

Lemma scanMachineOSContent_Ok_inv tags osVersion :
  scanMachineOSContent tags = Ok osVersion ->
  exists before m annotations after,
    tags = (before ++ JObject m :: after)%list /\
    Forall (other_tag "machine-os-content") before /\
    m !! "name" = Some (JString "machine-os-content") /\
    m !! "annotations" = Some (JObject annotations) /\
    annotations !! "io.openshift.build.versions" = Some (JString osVersion).
Proof.
  induction tags as [|tag tags IH]; simpl; [done|].
  destruct tag as [| | | | |m]; simpl; try done.
  destruct (iface_eq_string (m !! "name") "machine-os-content") eqn:E.
  - apply iface_eq_string_named in E.
    destruct (m !! "annotations") as [[| | | | |annotations]|] eqn:Hann;
      simpl; try done.
    destruct (annotations !! "io.openshift.build.versions") as [[]|] eqn:Hv;
      try done.
    intros [= <-]. by exists [], m, annotations, tags.
  - intros (before & m' & annotations & after & -> & Hbefore & H)%IH.
    exists (JObject m :: before), m', annotations, after.
    split; [done|]. split; [|done]. constructor; [|done].
    by apply other_tag_unnamed.
Qed.

(** X16: an image URL returned by ReleaseManifests is the string
    [from.name] of the first element of [spec.tags] named driver-toolkit,
    and every element before it is an object with another name. *)
Theorem ReleaseManifests_sound W layer url :
  ReleaseManifests W layer = Ok url ->
  exists obj spec before m from after,
    getHeaderFromLayer W layer "release-manifests/image-references" = Ok obj /\
    obj !! "spec" = Some (JObject spec) /\
    spec !! "tags" = Some (JArray (before ++ JObject m :: after)) /\
    Forall (other_tag "driver-toolkit") before /\
    m !! "name" = Some (JString "driver-toolkit") /\
    m !! "from" = Some (JObject from) /\
    from !! "name" = Some (JString url).
Proof.
  unfold ReleaseManifests.
  destruct (getHeaderFromLayer W layer _) as [obj| |]; simpl; [|done..].
  destruct (NestedSlice obj ["spec"; "tags"]) as [[tags found] err] eqn:E.
  destruct (failed found err) eqn:F; [done|].
  destruct (NestedSlice_found_inv _ _ _ _ E F) as (spec & Hspec & Htags).
  intros (before & m & from & after & -> & H)%scanDriverToolkit_Ok_inv.
  by exists obj, spec, before, m, from, after.
Qed.

Lemma ReleaseManifests_sound_witness :
  exists obj spec before m from after,
    getHeaderFromLayer Fixture.world
      (Fixture.archive "release-manifests/image-references" "references-late.json")
      "release-manifests/image-references" = Ok obj /\
    obj !! "spec" = Some (JObject spec) /\
    spec !! "tags" = Some (JArray (before ++ JObject m :: after)) /\
    Forall (other_tag "driver-toolkit") before /\
    m !! "name" = Some (JString "driver-toolkit") /\
    m !! "from" = Some (JObject from) /\
    from !! "name" = Some (JString "reg.io/dtk:v1").
Proof.
  apply (ReleaseManifests_sound Fixture.world). reflexivity.
Defined.

(** X17: an OS version returned by ReleaseImageMachineOSConfig is the
    string annotation io.openshift.build.versions of the first element of
    [spec.tags] named machine-os-content, and every element before it is an
    object with another name. *)
Theorem ReleaseImageMachineOSConfig_sound W layer osVersion :
  ReleaseImageMachineOSConfig W layer = Ok osVersion ->
  exists obj spec before m annotations after,
    getHeaderFromLayer W layer "release-manifests/image-references" = Ok obj /\
    obj !! "spec" = Some (JObject spec) /\
    spec !! "tags" = Some (JArray (before ++ JObject m :: after)) /\
    Forall (other_tag "machine-os-content") before /\
    m !! "name" = Some (JString "machine-os-content") /\
    m !! "annotations" = Some (JObject annotations) /\
    annotations !! "io.openshift.build.versions" = Some (JString osVersion).
Proof.
  unfold ReleaseImageMachineOSConfig.
  destruct (getHeaderFromLayer W layer _) as [obj| |]; simpl; [|done..].
  destruct (NestedSlice obj ["spec"; "tags"]) as [[tags found] err] eqn:E.
  destruct (failed found err) eqn:F; [done|].
  destruct (NestedSlice_found_inv _ _ _ _ E F) as (spec & Hspec & Htags).
  intros (before & m & ann & after & -> & H)%scanMachineOSContent_Ok_inv.
  by exists obj, spec, before, m, ann, after.
Qed.

Lemma ReleaseImageMachineOSConfig_sound_witness :
  exists obj spec before m annotations after,
    getHeaderFromLayer Fixture.world
      (Fixture.archive "release-manifests/image-references" "references-late.json")
      "release-manifests/image-references" = Ok obj /\
    obj !! "spec" = Some (JObject spec) /\
    spec !! "tags" = Some (JArray (before ++ JObject m :: after)) /\
    Forall (other_tag "machine-os-content") before /\
    m !! "name" = Some (JString "machine-os-content") /\
    m !! "annotations" = Some (JObject annotations) /\
    annotations !! "io.openshift.build.versions" = Some (JString "machine-os=49.84").
Proof.
  apply (ReleaseImageMachineOSConfig_sound Fixture.world). reflexivity.
Defined.

(** ** The repository of a reference *)

Lemma has_byte_split s c :
  has_byte s c = true ->
  exists s1 s2, s = s1 ++ String c s2 /\ has_byte s1 c = false.
Proof.
  induction s as [|c' s IH]; simpl; [done|].
  destruct (Ascii.eqb_spec c' c) as [->|Hne]; simpl.
  - intros _. by exists "", s.
  - intros (s1 & s2 & -> & H1)%IH. exists (String c' s1), s2. simpl.
    split; [done|]. destruct (Ascii.eqb_spec c' c); done.
Qed.

Lemma strings_Split_head_empty s c :
  (1 <? List.length (strings_Split (String c s) c))%nat = true /\
  head (strings_Split (String c s) c) = Some "".
Proof.
  simpl. rewrite Ascii.eqb_refl. simpl.
  pose proof (strings_Split_length s c).
  split; [|done]. apply Nat.ltb_lt. lia.
Qed.

Lemma GetLayersDigests_split_at W repo rest registry auth tr tr' :
  repo <> "" ->
  has_byte repo "@" = false ->
  registryFromImageURL W (repo ++ "@" ++ rest) = Ok registry ->
  getImageRegistryCredentials W registry tr = (Ok auth, tr') ->
  GetLayersDigests W (repo ++ "@" ++ rest) tr
  = (manifest <- getManifestStreamFromImage W (repo ++ "@" ++ rest) repo
                   (if negb (String.eqb (Auth auth) "")
                    then [WithAuth (Email auth) (Auth auth)] else []) ;;
     digests <- lift (getLayersDigestsFromManifestStream W manifest) ;;
     mret (repo, digests,
           if negb (String.eqb (Auth auth) "")
           then [WithAuth (Email auth) (Auth auth)] else [])) tr'.
Proof.
  intros Hrepo Hat Hreg Hcred.
  assert (String.eqb repo "" = false) as Hne by by apply String.eqb_neq.
  unfold GetLayersDigests at 1. unfold mbind at 1 2, lift at 1.
  rewrite Hreg, Hcred.
  change ("@" ++ rest) with (String "@" rest).
  rewrite strings_Split_first by done.
  pose proof (strings_Split_length rest "@") as Hlen.
  destruct (strings_Split rest "@"); simpl in *; [lia|].
  by rewrite Hne.
Qed.

Lemma GetLayersDigests_no_repository W image registry auth tr tr' :
  no_repository image ->
  registryFromImageURL W image = Ok registry ->
  getImageRegistryCredentials W registry tr = (Ok auth, tr') ->
  GetLayersDigests W image tr = (Err (ErrNoHashOrTag image), tr').
Proof.
  intros Hshape Hreg Hcred. unfold GetLayersDigests, mbind, lift.
  rewrite Hreg, Hcred.
  destruct Hshape as [[Hat Hcolon]|[[rest ->]|[Hat [rest ->]]]].
  - by rewrite !strings_Split_none.
  - change ("@" ++ rest) with (String "@" rest).
    destruct (strings_Split_head_empty rest "@") as [-> ->]. done.
  - rewrite strings_Split_none by done.
    change (":" ++ rest) with (String ":" rest).
    destruct (strings_Split_head_empty rest ":") as [-> ->]. done.
Qed.

Lemma resolution_not_ref_error W image repo options tr img tr' :
  (manifest <- getManifestStreamFromImage W image repo options ;;
   digests <- lift (getLayersDigestsFromManifestStream W manifest) ;;
   mret (repo, digests, options)) tr
  <> (Err (ErrNoHashOrTag img), tr').
Proof.
  unfold mbind, lift, mret, getLayersDigestsFromManifestStream, of_lib, obind.
  destruct (getManifestStreamFromImage W image repo options tr)
    as [[m|e|p] tr2] eqn:E.
  - by destruct (unmarshal_Manifest W m).
  - intros [= -> ->]. by eapply getManifestStreamFromImage_error.
  - done.
Qed.

(** The two outcomes of the derivation of the repository, once the registry
    is parsed and its credentials found. *)
Lemma GetLayersDigests_cases W image registry auth tr tr1 :
  registryFromImageURL W image = Ok registry ->
  getImageRegistryCredentials W registry tr = (Ok auth, tr1) ->
  (no_repository image /\
   GetLayersDigests W image tr = (Err (ErrNoHashOrTag image), tr1)) \/
  (exists repo,
     repo <> "" /\ repository_of image repo /\
     GetLayersDigests W image tr
     = (manifest <- getManifestStreamFromImage W image repo
                      (if negb (String.eqb (Auth auth) "")
                       then [WithAuth (Email auth) (Auth auth)] else []) ;;
        digests <- lift (getLayersDigestsFromManifestStream W manifest) ;;
        mret (repo, digests,
              if negb (String.eqb (Auth auth) "")
              then [WithAuth (Email auth) (Auth auth)] else [])) tr1).
Proof.
  intros Hreg Hcred.
  destruct (has_byte image "@") eqn:Hat.
  - destruct (has_byte_split _ _ Hat) as (repo & rest & -> & Hrepo).
    destruct (decide (repo = "")) as [->|Hne].
    + left. assert (no_repository ("" ++ String "@" rest)) as Hno
        by (right; left; by exists rest).
      split; [done|]. by apply (GetLayersDigests_no_repository _ _ registry auth).
    + right. exists repo. split; [done|]. split.
      * left. by exists rest.
      * by apply (GetLayersDigests_split_at _ _ _ registry).
  - destruct (has_byte image ":") eqn:Hcolon.
    + destruct (has_byte_split _ _ Hcolon) as (repo & rest & -> & Hrepo).
      destruct (decide (repo = "")) as [->|Hne].
      * left. assert (no_repository ("" ++ String ":" rest)) as Hno
          by (right; right; split; [done|by exists rest]).
        split; [done|].
        by apply (GetLayersDigests_no_repository _ _ registry auth).
      * right. exists repo. split; [done|]. split.
        -- right. split; [done|]. by exists rest.
        -- by apply (GetLayersDigests_split_colon _ _ _ registry).
    + left. assert (no_repository image) as Hno by by left.
      split; [done|]. by apply (GetLayersDigests_no_repository _ _ registry auth).
Qed.

(** X18: in a reference repo@rest the repository is all that stands before
    the first "@", a ":" of a registry port included: once the registry is
    parsed and its credentials found, the resolution fetches the manifest
    with that repository and returns it with the digests. *)
Theorem GetLayersDigests_digest_form W repo rest registry auth tr tr' :
  repo <> "" ->
  has_byte repo "@" = false ->
  registryFromImageURL W (repo ++ "@" ++ rest) = Ok registry ->
  getImageRegistryCredentials W registry tr = (Ok auth, tr') ->
  GetLayersDigests W (repo ++ "@" ++ rest) tr
  = (manifest <- getManifestStreamFromImage W (repo ++ "@" ++ rest) repo
                   (if negb (String.eqb (Auth auth) "")
                    then [WithAuth (Email auth) (Auth auth)] else []) ;;
     digests <- lift (getLayersDigestsFromManifestStream W manifest) ;;
     mret (repo, digests,
           if negb (String.eqb (Auth auth) "")
           then [WithAuth (Email auth) (Auth auth)] else [])) tr'.
Proof. apply GetLayersDigests_split_at. Qed.

Lemma GetLayersDigests_digest_form_witness :
  GetLayersDigests Faults.world "localhost:5000/repo@sha256:aa" []
  = (Ok ("localhost:5000/repo", ["sha256:a0"; "sha256:a1"; "sha256:a2"], []),
     [EvGetSecret "openshift-config" "pull-secret";
      EvManifest "localhost:5000/repo@sha256:aa" []]).
Proof.
  refine (eq_trans
            (GetLayersDigests_digest_form Faults.world "localhost:5000/repo"
               "sha256:aa" "localhost:5000" {| Auth := ""; Email := "" |} []
               [EvGetSecret "openshift-config" "pull-secret"] _ _ _ _) _);
    (reflexivity || discriminate).
Defined.

(** X19: once the registry is parsed and its credentials found, the
    resolution fails with the no-hash-or-tag error exactly when nothing
    stands before the separator of the reference: it has neither "@" nor
    ":", or it starts with "@", or it has no "@" and starts with ":".  A ":" 
    further on is not tried when the reference starts with "@". *)
Theorem no_hash_or_tag_iff W image registry auth tr tr' :
  registryFromImageURL W image = Ok registry ->
  getImageRegistryCredentials W registry tr = (Ok auth, tr') ->
  (exists img tr'', GetLayersDigests W image tr = (Err (ErrNoHashOrTag img), tr''))
  <-> no_repository image.
Proof.
  intros Hreg Hcred. split.
  - intros (img & tr'' & H).
    destruct (GetLayersDigests_cases _ _ _ _ _ _ Hreg Hcred)
      as [[Hno _]|(repo & _ & _ & Heq)]; [done|].
    rewrite Heq in H. by apply resolution_not_ref_error in H.
  - intros Hno. exists image, tr'.
    by apply (GetLayersDigests_no_repository _ _ registry auth).
Qed.

Lemma no_hash_or_tag_iff_witness :
  (exists img tr'',
     GetLayersDigests Fixture.world "reg.io/dtk" []
     = (Err (ErrNoHashOrTag img), tr''))
  <-> no_repository "reg.io/dtk".
Proof.
  apply (no_hash_or_tag_iff Fixture.world "reg.io/dtk" "reg.io"
           {| Auth := "abc"; Email := "e@x.com" |} []
           [EvGetSecret "openshift-config" "pull-secret"]);
    reflexivity.
Defined.

(** ** What a resolution calls, and with what *)

Lemma getImageRegistryCredentials_trace W registry tr :
  snd (getImageRegistryCredentials W registry tr)
  = (tr ++ [EvGetSecret "openshift-config" "pull-secret"])%list /\
  forall p, fst (getImageRegistryCredentials W registry tr) <> Panic p.
Proof.
  unfold getImageRegistryCredentials, mbind, call, lift, mret.
  repeat case_match; simplify_eq/=; done.
Qed.

Lemma findArch_no_panic arch manifests p : findArch arch manifests <> Panic p.
Proof.
  induction manifests as [|d manifests IH]; simpl; [done|].
  repeat case_match; done.
Qed.

Lemma getManifestStreamFromImage_trace W image repo options tr :
  (snd (getManifestStreamFromImage W image repo options tr)
   = (tr ++ [EvManifest image options])%list \/
   exists ref,
     snd (getManifestStreamFromImage W image repo options tr)
     = (tr ++ [EvManifest image options; EvManifest ref options])%list) /\
  forall p, fst (getManifestStreamFromImage W image repo options tr) <> Panic p.
Proof.
  unfold getManifestStreamFromImage, getImageDigestFromMultiImage,
    mbind, call, lift, mret, of_lib, obind.
  repeat (case_match; simplify_eq/=);
    try match goal with
        | H : findArch _ _ = Panic _ |- _ =>
            by destruct (findArch_no_panic _ _ _ H)
        end;
    (split; [|done]);
    try (by left);
    right; eexists; by rewrite <- (assoc_L (++)%list).
Qed.

Lemma resolution_trace W image repo options tr :
  (exists evs,
     snd ((manifest <- getManifestStreamFromImage W image repo options ;;
           digests <- lift (getLayersDigestsFromManifestStream W manifest) ;;
           mret (repo, digests, options)) tr) = (tr ++ evs)%list /\
     (List.length evs <= 2)%nat /\
     Forall (manifest_call options) evs) /\
  (forall p,
     fst ((manifest <- getManifestStreamFromImage W image repo options ;;
           digests <- lift (getLayersDigestsFromManifestStream W manifest) ;;
           mret (repo, digests, options)) tr) <> Panic p) /\
  (forall repo' digests options',
     fst ((manifest <- getManifestStreamFromImage W image repo options ;;
           digests <- lift (getLayersDigestsFromManifestStream W manifest) ;;
           mret (repo, digests, options)) tr) = Ok (repo', digests, options') ->
     repo' = repo /\ options' = options).
Proof.
  destruct (getManifestStreamFromImage_trace W image repo options tr)
    as [Htrace Hpanic].
  unfold mbind, lift, mret, getLayersDigestsFromManifestStream, of_lib, obind.
  destruct (getManifestStreamFromImage W image repo options tr)
    as [[m|e|p] tr2]; simpl in *.
  - assert (exists evs, tr2 = (tr ++ evs)%list /\ (List.length evs <= 2)%nat /\
                        Forall (manifest_call options) evs) as Hevs.
    { destruct Htrace as [->|[ref ->]]; eexists; (split; [done|]);
        (split; [simpl; lia|]); repeat constructor; by eexists. }
    destruct (unmarshal_Manifest W m); simpl; (split; [done|]);
      (split; [done|]); intros ? ? ? [=]; by subst.
  - split; [|done].
    destruct Htrace as [->|[ref ->]]; eexists; (split; [done|]);
      (split; [simpl; lia|]); repeat constructor; by eexists.
  - by destruct (Hpanic p).
Qed.

Lemma GetLayersDigests_cred_failure W image registry tr o tr1 :
  registryFromImageURL W image = Ok registry ->
  getImageRegistryCredentials W registry tr = (o, tr1) ->
  (forall auth, o <> Ok auth) ->
  exists e, o = Err e /\ GetLayersDigests W image tr = (Err e, tr1).
Proof.
  intros Hreg Hcred Hno.
  pose proof (getImageRegistryCredentials_trace W registry tr) as [_ Hpanic].
  rewrite Hcred in Hpanic. simpl in Hpanic.
  destruct o as [auth|e|p]; [by destruct (Hno auth)| |by destruct (Hpanic p)].
  exists e. split; [done|]. unfold GetLayersDigests, mbind, lift.
  by rewrite Hreg, Hcred.
Qed.

Lemma GetLayersDigests_parse_failure W image e tr :
  registryFromImageURL W image = Err e ->
  GetLayersDigests W image tr = (Err e, tr).
Proof.
  intros Hreg. unfold GetLayersDigests, mbind, lift. by rewrite Hreg.
Qed.

(** X20: what a successful resolution returns: the repository is not empty
    and is what stands in the reference before its first "@", or before its
    first ":" when it has no "@"; the options are empty when the Auth of the
    registry's credentials is empty and otherwise the one option made of
    their Email and Auth; the digests are those of the layers of the
    manifest that was resolved with that repository and those options right
    after the read of the pull secret. *)
Theorem GetLayersDigests_sound W image tr repo digests options tr' :
  GetLayersDigests W image tr = (Ok (repo, digests, options), tr') ->
  repo <> "" /\ repository_of image repo /\
  exists registry auth manifestStream manifest,
    registryFromImageURL W image = Ok registry /\
    getImageRegistryCredentials W registry tr
    = (Ok auth, (tr ++ [EvGetSecret "openshift-config" "pull-secret"])%list) /\
    options = (if negb (String.eqb (Auth auth) "")
               then [WithAuth (Email auth) (Auth auth)] else []) /\
    getManifestStreamFromImage W image repo options
      (tr ++ [EvGetSecret "openshift-config" "pull-secret"])%list
    = (Ok manifestStream, tr') /\
    unmarshal_Manifest W manifestStream = inr manifest /\
    digests = map (fun layer => Algorithm (Digest layer) ++ ":" ++ Hex (Digest layer))
                  (Layers manifest).
Proof.
  intros H.
  destruct (registryFromImageURL W image) as [registry|e|p] eqn:Hreg;
    [|by rewrite (GetLayersDigests_parse_failure _ _ _ _ Hreg) in H
     |by destruct (registryFromImageURL_no_panic _ _ _ Hreg)].
  destruct (getImageRegistryCredentials W registry tr) as [o tr1] eqn:Hcred.
  pose proof (getImageRegistryCredentials_trace W registry tr) as [Htr1 _].
  rewrite Hcred in Htr1. simpl in Htr1. subst tr1.
  destruct o as [auth|e|p];
    [|destruct (GetLayersDigests_cred_failure _ _ _ _ _ _ Hreg Hcred)
        as (e' & _ & He'); [done|congruence]..].
  destruct (GetLayersDigests_cases _ _ _ _ _ _ Hreg Hcred)
    as [[_ Herr]|(repo' & Hne & Hshape & Heq)]; [congruence|].
  rewrite Heq in H. clear Heq.
  unfold mbind, lift, mret, getLayersDigestsFromManifestStream, of_lib, obind in H.
  destruct (getManifestStreamFromImage W image repo' _ _)
    as [[m|e|p] tr2] eqn:Hfetch; [|done..].
  destruct (unmarshal_Manifest W m) as [e|manifest] eqn:Hdecode; [done|].
  injection H as <- <- <- <-.
  repeat split; [done..|]. by exists registry, auth, m, manifest.
Qed.

Lemma GetLayersDigests_sound_witness :
  "reg.io/dtk" <> "" /\ repository_of "reg.io/dtk:v1" "reg.io/dtk" /\
  exists registry auth manifestStream manifest,
    registryFromImageURL Fixture.world "reg.io/dtk:v1" = Ok registry /\
    getImageRegistryCredentials Fixture.world registry []
    = (Ok auth, ([] ++ [EvGetSecret "openshift-config" "pull-secret"])%list) /\
    [WithAuth "e@x.com" "abc"]
    = (if negb (String.eqb (Auth auth) "")
       then [WithAuth (Email auth) (Auth auth)] else []) /\
    getManifestStreamFromImage Fixture.world "reg.io/dtk:v1" "reg.io/dtk"
      [WithAuth "e@x.com" "abc"]
      ([] ++ [EvGetSecret "openshift-config" "pull-secret"])%list
    = (Ok manifestStream,
       [EvGetSecret "openshift-config" "pull-secret";
        EvManifest "reg.io/dtk:v1" [WithAuth "e@x.com" "abc"];
        EvManifest "reg.io/dtk@sha256:d1" [WithAuth "e@x.com" "abc"]]) /\
    unmarshal_Manifest Fixture.world manifestStream = inr manifest /\
    ["sha256:a0"; "sha256:a1"; "sha256:a2"]
    = map (fun layer => Algorithm (Digest layer) ++ ":" ++ Hex (Digest layer))
          (Layers manifest).
Proof.
  apply (GetLayersDigests_sound Fixture.world "reg.io/dtk:v1" []).
  reflexivity.
Defined.

Lemma GetLayersDigests_options W image registry auth tr tr1 :
  registryFromImageURL W image = Ok registry ->
  getImageRegistryCredentials W registry tr = (Ok auth, tr1) ->
  (exists evs,
     snd (GetLayersDigests W image tr) = (tr1 ++ evs)%list /\
     (List.length evs <= 2)%nat /\
     Forall (manifest_call (if negb (String.eqb (Auth auth) "")
                            then [WithAuth (Email auth) (Auth auth)] else [])) evs) /\
  (forall p, fst (GetLayersDigests W image tr) <> Panic p) /\
  (forall repo digests options,
     fst (GetLayersDigests W image tr) = Ok (repo, digests, options) ->
     options = (if negb (String.eqb (Auth auth) "")
                then [WithAuth (Email auth) (Auth auth)] else [])).
Proof.
  intros Hreg Hcred.
  destruct (GetLayersDigests_cases _ _ _ _ _ _ Hreg Hcred)
    as [[_ ->]|(repo & _ & _ & ->)]; simpl.
  - split; [|done]. exists []. rewrite app_nil_r.
    split; [done|]. split; [simpl; lia|constructor].
  - destruct (resolution_trace W image repo
                (if negb (String.eqb (Auth auth) "")
                 then [WithAuth (Email auth) (Auth auth)] else []) tr1)
      as (Hevs & Hpanic & Hok).
    split; [done|]. split; [done|].
    intros repo' digests options H. by destruct (Hok _ _ _ H).
Qed.

Lemma manifest_calls_with options evs :
  Forall (manifest_call options) evs -> calls_with options evs.
Proof.
  intros H. eapply Forall_impl; [exact H|]. by intros ev [ref ->].
Qed.

Lemma manifest_calls_not_pulls options evs :
  Forall (manifest_call options) evs -> Forall not_a_pull evs.
Proof.
  intros H. eapply Forall_impl; [exact H|]. by intros ev [ref ->] ? ?.
Qed.

Lemma LastLayer_failure W image tr e tr' :
  GetLayersDigests W image tr = (Err e, tr') ->
  LastLayer W image tr = (Err e, tr').
Proof. intros H. unfold LastLayer, mbind. by rewrite H. Qed.

(** X21: when the credentials of the registry have a non-empty Auth, every
    registry call of the resolution and of LastLayer carries the one option
    made of their Email, as user name, and their Auth, and these are the
    options the resolution returns. *)
Theorem token_on_every_call W image registry auth tr tr1 :
  registryFromImageURL W image = Ok registry ->
  getImageRegistryCredentials W registry tr = (Ok auth, tr1) ->
  Auth auth <> "" ->
  (exists evs,
     snd (GetLayersDigests W image tr) = (tr1 ++ evs)%list /\
     calls_with [WithAuth (Email auth) (Auth auth)] evs /\
     forall repo digests options,
       fst (GetLayersDigests W image tr) = Ok (repo, digests, options) ->
       options = [WithAuth (Email auth) (Auth auth)]) /\
  (exists evs,
     snd (LastLayer W image tr) = (tr1 ++ evs)%list /\
     calls_with [WithAuth (Email auth) (Auth auth)] evs).
Proof.
  intros Hreg Hcred Hauth.
  destruct (GetLayersDigests_options _ _ _ _ _ _ Hreg Hcred)
    as ((evs & Htrace & _ & Hcalls) & Hpanic & Hoptions).
  rewrite (proj2 (String.eqb_neq _ _) Hauth) in Hcalls, Hoptions.
  simpl in Hcalls, Hoptions.
  apply manifest_calls_with in Hcalls.
  split; [by exists evs|].
  destruct (GetLayersDigests W image tr)
    as [[[[repo digests] options]|e|p] tr2] eqn:E; simpl in *; subst tr2.
  - rewrite (Hoptions _ _ _ eq_refl) in E.
    rewrite (LastLayer_resolved _ _ _ _ _ _ _ E).
    destruct (index digests _) as [digest| |]; simpl; [|by exists evs..].
    exists (evs ++ [EvPullLayer (repo ++ "@" ++ digest)
                      [WithAuth (Email auth) (Auth auth)]])%list.
    split; [by rewrite (assoc_L (++)%list)|].
    apply Forall_app. split; [done|]. by constructor.
  - exists evs. by rewrite (LastLayer_failure _ _ _ _ _ E).
  - by destruct (Hpanic p).
Qed.

Lemma token_on_every_call_witness :
  exists evs,
    snd (LastLayer Fixture.world "reg.io/dtk:v1" [])
    = ([EvGetSecret "openshift-config" "pull-secret"] ++ evs)%list /\
    calls_with [WithAuth "e@x.com" "abc"] evs.
Proof.
  refine (proj2 (token_on_every_call Fixture.world "reg.io/dtk:v1" "reg.io"
                   {| Auth := "abc"; Email := "e@x.com" |} []
                   [EvGetSecret "openshift-config" "pull-secret"] _ _ _));
    (reflexivity || discriminate).
Defined.

Lemma GetLayersDigests_bounded W image tr :
  (exists evs,
     snd (GetLayersDigests W image tr) = (tr ++ evs)%list /\
     (List.length evs <= 3)%nat /\ Forall not_a_pull evs) /\
  forall p, fst (GetLayersDigests W image tr) <> Panic p.
Proof.
  destruct (registryFromImageURL W image) as [registry|e|p] eqn:Hreg;
    [|rewrite (GetLayersDigests_parse_failure _ _ _ _ Hreg); simpl;
      split; [|done]; exists []; rewrite app_nil_r;
      (split; [done|]); split; [simpl; lia|constructor]
     |by destruct (registryFromImageURL_no_panic _ _ _ Hreg)].
  destruct (getImageRegistryCredentials W registry tr) as [o tr1] eqn:Hcred.
  pose proof (getImageRegistryCredentials_trace W registry tr) as [Htr1 _].
  rewrite Hcred in Htr1. simpl in Htr1. subst tr1.
  destruct o as [auth|e|p].
  - destruct (GetLayersDigests_options _ _ _ _ _ _ Hreg Hcred)
      as ((evs & -> & Hlen & Hcalls) & Hpanic & _).
    split; [|done].
    exists (EvGetSecret "openshift-config" "pull-secret" :: evs).
    split; [by rewrite <- (assoc_L (++)%list)|]. simpl. split; [lia|].
    constructor; [done|]. by eapply manifest_calls_not_pulls.
  - destruct (GetLayersDigests_cred_failure _ _ _ _ _ _ Hreg Hcred)
      as (e' & _ & ->); [done|]. simpl. split; [|done].
    exists [EvGetSecret "openshift-config" "pull-secret"].
    split; [done|]. split; [simpl; lia|]. by repeat constructor.
  - destruct (GetLayersDigests_cred_failure _ _ _ _ _ _ Hreg Hcred)
      as (e' & He' & _); done.
Qed.

(** X22: on every reference and in every cluster, the resolution of the
    digests records at most three calls, the read of the pull secret and at
    most two manifest fetches, never pulls a layer and never panics. *)
Theorem GetLayersDigests_never_pulls W image tr :
  (exists evs,
     snd (GetLayersDigests W image tr) = (tr ++ evs)%list /\
     (List.length evs <= 3)%nat /\ Forall not_a_pull evs) /\
  forall p, fst (GetLayersDigests W image tr) <> Panic p.
Proof. apply GetLayersDigests_bounded. Qed.

(** ** LastLayer and GetLayerByDigest *)

(** X23: LastLayer is the resolution followed by GetLayerByDigest on the
    last digest with the repository and the options the resolution
    returned; and an error of the resolution is returned by LastLayer
    unchanged, with no layer pulled. *)
Theorem LastLayer_is_GetLayerByDigest W image tr tr' :
  (forall repo front digest options,
     GetLayersDigests W image tr
     = (Ok (repo, (front ++ [digest])%list, options), tr') ->
     LastLayer W image tr = GetLayerByDigest W repo digest options tr') /\
  (forall e,
     GetLayersDigests W image tr = (Err e, tr') ->
     LastLayer W image tr = (Err e, tr')).
Proof.
  split.
  - intros repo front digest options H.
    rewrite (LastLayer_last _ _ _ _ _ _ _ _ H).
    unfold GetLayerByDigest, mbind, call, lift. done.
  - intros e H. by apply LastLayer_failure.
Qed.

Lemma LastLayer_is_GetLayerByDigest_witness :
  LastLayer Fixture.world "reg.io/dtk:v1" []
  = GetLayerByDigest Fixture.world "reg.io/dtk" "sha256:a2"
      [WithAuth "e@x.com" "abc"]
      [EvGetSecret "openshift-config" "pull-secret";
       EvManifest "reg.io/dtk:v1" [WithAuth "e@x.com" "abc"];
       EvManifest "reg.io/dtk@sha256:d1" [WithAuth "e@x.com" "abc"]] /\
  LastLayer Fixture.world "other.io/repo:v1" []
  = (Err (ErrNoAuthForRegistry "other.io"),
     [EvGetSecret "openshift-config" "pull-secret"]).
Proof.
  split.
  - apply (proj1 (LastLayer_is_GetLayerByDigest Fixture.world "reg.io/dtk:v1" [] _)
             "reg.io/dtk" ["sha256:a0"; "sha256:a1"] "sha256:a2"
             [WithAuth "e@x.com" "abc"]).
    reflexivity.
  - apply (proj2 (LastLayer_is_GetLayerByDigest Fixture.world
                    "other.io/repo:v1" [] _)).
    reflexivity.
Defined.

(** X24: the only panic of LastLayer is the index out of range [-1] of a
    resolution that succeeded with no digest; it happens before any layer is
    pulled.  In every other case LastLayer returns a layer or an error. *)
Theorem LastLayer_only_panic W image tr p :
  fst (LastLayer W image tr) = Panic p ->
  p = PanicIndexOutOfRange (-1) 0 /\
  snd (LastLayer W image tr) = snd (GetLayersDigests W image tr) /\
  exists repo options,
    fst (GetLayersDigests W image tr) = Ok (repo, [], options).
Proof.
  destruct (GetLayersDigests_bounded W image tr) as [_ Hpanic].
  destruct (GetLayersDigests W image tr)
    as [[[[repo digests] options]|e|p'] tr'] eqn:E; simpl in *.
  - destruct digests as [|d digests _] using rev_ind.
    + rewrite (LastLayer_resolved _ _ _ _ _ _ _ E). simpl.
      intros [= <-]. repeat split. by exists repo, options.
    + rewrite (LastLayer_last _ _ _ _ _ _ _ _ E). simpl.
      by destruct (crane_PullLayer W _ _).
  - by rewrite (LastLayer_failure _ _ _ _ _ E).
  - by destruct (Hpanic p').
Qed.

Lemma LastLayer_only_panic_witness :
  PanicIndexOutOfRange (-1) 0 = PanicIndexOutOfRange (-1) 0 /\
  snd (LastLayer Fixture.world "reg.io/scratch:v1" [])
  = snd (GetLayersDigests Fixture.world "reg.io/scratch:v1" []) /\
  exists repo options,
    fst (GetLayersDigests Fixture.world "reg.io/scratch:v1" [])
    = Ok (repo, [], options).
Proof.
  apply (LastLayer_only_panic Fixture.world "reg.io/scratch:v1" []).
  reflexivity.
Defined.

(** ** Fetching the manifest *)

(** X25: a manifest whose media type is a string without "manifest.list" is
    returned as fetched, after that one fetch: no architecture is looked up
    and the repository is not used.  This is also what happens to an OCI
    image index, whose media type has no "manifest.list". *)
Theorem single_manifest_returned_as_fetched W image repo options manifest
    release mediaType tr :
  crane_Manifest W image options = inr manifest ->
  unmarshal_object W manifest = inr release ->
  release !! "mediaType" = Some (JString mediaType) ->
  strings_Contains mediaType "manifest.list" = false ->
  getManifestStreamFromImage W image repo options tr
  = (Ok manifest, (tr ++ [EvManifest image options])%list).
Proof.
  intros Hfetch Hrelease Htype Hsingle.
  unfold getManifestStreamFromImage, mbind, call, lift, mret.
  rewrite Hfetch. simpl. rewrite Hrelease. simpl.
  rewrite (NestedString_string _ _ _ Htype). simpl. by rewrite Hsingle.
Qed.

Lemma single_manifest_returned_as_fetched_witness :
  getManifestStreamFromImage Faults.world "reg.io/oci:v1" "reg.io/oci" [] []
  = (Ok "oci-index.json", [EvManifest "reg.io/oci:v1" []]).
Proof.
  apply (single_manifest_returned_as_fetched Faults.world "reg.io/oci:v1"
           "reg.io/oci" [] "oci-index.json"
           {["mediaType" := JString Faults.oci_index_type]}
           Faults.oci_index_type []);
    reflexivity.
Defined.

(** X26: a fetched manifest without [mediaType] fails with the
    media-type-missing error of the image, and one whose [mediaType] is not
    a string fails with the accessor error for that field and value; in both
    cases after the one fetch. *)
Theorem media_type_absent_or_mistyped W image repo options manifest release tr :
  crane_Manifest W image options = inr manifest ->
  unmarshal_object W manifest = inr release ->
  (release !! "mediaType" = None ->
   getManifestStreamFromImage W image repo options tr
   = (Err (ErrMediaTypeMissing image), (tr ++ [EvManifest image options])%list)) /\
  (forall v,
     release !! "mediaType" = Some v ->
     (forall s, v <> JString s) ->
     getManifestStreamFromImage W image repo options tr
     = (Err (ErrAccessor (AccessorError ["mediaType"] v "string")),
        (tr ++ [EvManifest image options])%list)).
Proof.
  intros Hfetch Hrelease.
  unfold getManifestStreamFromImage, mbind, call, lift, mret.
  rewrite Hfetch. simpl. rewrite Hrelease. simpl. split.
  - intros H. by rewrite (NestedString_absent _ _ H).
  - intros v H Hv. by rewrite (NestedString_mistyped _ _ _ H Hv).
Qed.

Lemma media_type_absent_or_mistyped_witness :
  getManifestStreamFromImage Faults.world "reg.io/untyped:v1" "reg.io/untyped" [] []
  = (Err (ErrMediaTypeMissing "reg.io/untyped:v1"),
     [EvManifest "reg.io/untyped:v1" []]) /\
  getManifestStreamFromImage Faults.world "reg.io/odd:v1" "reg.io/odd" [] []
  = (Err (ErrAccessor (AccessorError ["mediaType"] (JNumber 0) "string")),
     [EvManifest "reg.io/odd:v1" []]).
Proof.
  split.
  - refine (proj1 (media_type_absent_or_mistyped Faults.world
                     "reg.io/untyped:v1" "reg.io/untyped" []
                     "empty-object.json" ∅ [] _ _) _);
      reflexivity.
  - refine (proj2 (media_type_absent_or_mistyped Faults.world
                     "reg.io/odd:v1" "reg.io/odd" []
                     "numeric-type.json" {["mediaType" := JNumber 0]} [] _ _)
              (JNumber 0) _ _);
      (reflexivity || discriminate).
Defined.

(** X27: on every input the manifest resolution fetches the manifest of the
    image first and makes at most one more fetch, with the same options; it
    makes no other call and never panics. *)
Theorem getManifestStreamFromImage_fetches W image repo options tr :
  (snd (getManifestStreamFromImage W image repo options tr)
   = (tr ++ [EvManifest image options])%list \/
   exists ref,
     snd (getManifestStreamFromImage W image repo options tr)
     = (tr ++ [EvManifest image options; EvManifest ref options])%list) /\
  forall p, fst (getManifestStreamFromImage W image repo options tr) <> Panic p.
Proof. apply getManifestStreamFromImage_trace. Qed.

(** X28: an error of the registry on the first fetch, of the decoding of
    the manifest, or of the decoding of a manifest list is returned as it
    is, and the resolution stops after the first fetch. *)
Theorem manifest_library_errors W image repo options tr :
  (forall e,
     crane_Manifest W image options = inl e ->
     getManifestStreamFromImage W image repo options tr
     = (Err (ErrLib e), (tr ++ [EvManifest image options])%list)) /\
  (forall manifest e,
     crane_Manifest W image options = inr manifest ->
     unmarshal_object W manifest = inl e ->
     getManifestStreamFromImage W image repo options tr
     = (Err (ErrLib e), (tr ++ [EvManifest image options])%list)) /\
  (forall manifest release mediaType e,
     crane_Manifest W image options = inr manifest ->
     unmarshal_object W manifest = inr release ->
     release !! "mediaType" = Some (JString mediaType) ->
     strings_Contains mediaType "manifest.list" = true ->
     unmarshal_IndexManifest W manifest = inl e ->
     getManifestStreamFromImage W image repo options tr
     = (Err (ErrLib e), (tr ++ [EvManifest image options])%list)).
Proof.
  unfold getManifestStreamFromImage, getImageDigestFromMultiImage,
    mbind, call, lift, mret.
  split; [|split].
  - by intros e ->.
  - intros manifest e -> H. simpl. by rewrite H.
  - intros manifest release mediaType e -> Hrelease Htype Hlist Hindex. simpl.
    rewrite Hrelease. simpl. rewrite (NestedString_string _ _ _ Htype). simpl.
    by rewrite Hlist, Hindex.
Qed.

Lemma manifest_library_errors_witness :
  getManifestStreamFromImage Faults.world "reg.io/none:v1" "reg.io/none" [] []
  = (Err (ErrLib "MANIFEST_UNKNOWN"), [EvManifest "reg.io/none:v1" []]) /\
  getManifestStreamFromImage Faults.world "reg.io/cut:v1" "reg.io/cut" [] []
  = (Err (ErrLib "unexpected end of JSON input"), [EvManifest "reg.io/cut:v1" []]).
Proof.
  split.
  - apply (proj1 (manifest_library_errors Faults.world "reg.io/none:v1"
                    "reg.io/none" [] [])).
    reflexivity.
  - apply (proj1 (proj2 (manifest_library_errors Faults.world "reg.io/cut:v1"
                           "reg.io/cut" [] []))
             "truncated.json");
      reflexivity.
Defined.

Lemma findArch_Ok_inv arch manifests digest :
  findArch arch manifests = Ok digest ->
  exists before entry platform after,
    manifests = (before ++ entry :: after)%list /\
    Forall (other_arch arch) before /\
    DescPlatform entry = Some platform /\
    Architecture platform = arch /\
    digest = digest_string (Digest entry).
Proof.
  induction manifests as [|d manifests IH]; simpl; [done|].
  destruct (DescPlatform d) as [p|] eqn:Hp.
  - destruct (String.eqb_spec (Architecture p) arch) as [Harch|Harch].
    + intros [= <-]. by exists [], d, p, manifests.
    + intros (before & entry & platform & after & -> & Hbefore & H)%IH.
      exists (d :: before), entry, platform, after.
      split; [done|]. split; [|done]. constructor; [|done].
      intros p' Hp'. congruence.
  - intros (before & entry & platform & after & -> & Hbefore & H)%IH.
    exists (d :: before), entry, platform, after.
    split; [done|]. split; [|done]. constructor; [|done].
    intros p' Hp'. congruence.
Qed.

(** X29: a digest selected from a manifest list is the algorithm:hex digest
    of the first entry of the decoded list that has a platform whose
    architecture is the architecture of the process; entries without
    platform are passed over. *)
Theorem getImageDigestFromMultiImage_sound W manifestListStream digest :
  getImageDigestFromMultiImage W manifestListStream = Ok digest ->
  exists manifestList before entry platform after,
    unmarshal_IndexManifest W manifestListStream = inr manifestList /\
    Manifests manifestList = (before ++ entry :: after)%list /\
    Forall (other_arch (GOARCH W)) before /\
    DescPlatform entry = Some platform /\
    Architecture platform = GOARCH W /\
    digest = Algorithm (Digest entry) ++ ":" ++ Hex (Digest entry).
Proof.
  unfold getImageDigestFromMultiImage.
  destruct (unmarshal_IndexManifest W manifestListStream) as [e|manifestList];
    simpl; [done|].
  intros (before & entry & platform & after & H)%findArch_Ok_inv.
  by exists manifestList, before, entry, platform, after.
Qed.

Lemma getImageDigestFromMultiImage_sound_witness :
  exists manifestList before entry platform after,
    unmarshal_IndexManifest Fixture.world "index.json" = inr manifestList /\
    Manifests manifestList = (before ++ entry :: after)%list /\
    Forall (other_arch "amd64") before /\
    DescPlatform entry = Some platform /\
    Architecture platform = "amd64" /\
    "sha256:d1" = Algorithm (Digest entry) ++ ":" ++ Hex (Digest entry).
Proof.
  apply (getImageDigestFromMultiImage_sound Fixture.world "index.json").
  reflexivity.
Defined.
